(** * Verification of the video-agent backend: RAG engine and query handler

    Shallow embedding of [src/backend/rag_engine.py], of the query router
    [handle_user_query] in [src/backend/query_handler.py] and of the snippet
    window loop of [create_snippet_from_query] in [src/backend/api.py].

    Python [str] values are sequences of Unicode code points, modelled as
    [list N]; times in seconds are rationals [Q]; decoded JSON is the
    inductive [json]; exceptions are the constructors of [py_exn].  The
    external services (the OpenAI chat and embedding endpoints, ChromaDB's
    nearest-neighbour query, MD5) are variables of Sections, so every
    theorem holds for whatever they return. *)

From Stdlib Require Import List Bool Arith Lia ZArith NArith QArith Qminmax.
From Stdlib Require Import String Ascii Qround Lqa.
Set Warnings "-register-all,-abstract-large-number".
Local Open Scope Q_scope.
Import ListNotations.

(* ------------------------------------------------------------------ *)
(** ** Python strings *)

Definition pystr := list N.

(** An ASCII literal of the source as a Python string. *)
Definition of_ascii (s : string) : pystr :=
  map N_of_ascii (list_ascii_of_string s).

(** [sep.join(xs)] *)
Fixpoint py_join (sep : pystr) (xs : list pystr) : pystr :=
  match xs with
  | [] => []
  | x :: rest =>
      match rest with
      | [] => x
      | _ :: _ => x ++ sep ++ py_join sep rest
      end
  end.

Definition space : pystr := of_ascii " ".

(** Decimal digits of a natural number, as [str(n)] prints it. *)
Fixpoint digits_aux (fuel : nat) (n : N) (acc : pystr) : pystr :=
  match fuel with
  | O => (48 + n)%N :: acc
  | S fuel' =>
      if (n <? 10)%N then (48 + n)%N :: acc
      else digits_aux fuel' (n / 10)%N ((48 + n mod 10)%N :: acc)
  end.

Definition str_of_N (n : N) : pystr := digits_aux (N.size_nat n) n [].

(** [str(z)] for a Python int. *)
Definition str_of_Z (z : Z) : pystr :=
  match z with
  | Zneg p => 45%N :: str_of_N (Npos p)
  | _ => str_of_N (Z.to_N z)
  end.

(** [f"{z:02d}"]: zero-padded to width 2 (the sign counts in the width). *)
Definition fmt_02d (z : Z) : pystr :=
  if (0 <=? z)%Z && (z <? 10)%Z then 48%N :: str_of_Z z else str_of_Z z.

(** [old in s] *)
Fixpoint py_prefixb (p s : pystr) : bool :=
  match p, s with
  | [], _ => true
  | _ :: _, [] => false
  | a :: p', b :: s' => (a =? b)%N && py_prefixb p' s'
  end.


(** [s.replace(old, new)]: left-to-right, non-overlapping.  With an empty
    [old], Python inserts [new] before every character and at the end. *)
Fixpoint replace_fuel (fuel : nat) (old new s : pystr) : pystr :=
  match fuel with
  | O => s
  | S fuel' =>
      match s with
      | [] => []
      | c :: s' =>
          if py_prefixb old s
          then new ++ replace_fuel fuel' old new (skipn (List.length old) s)
          else c :: replace_fuel fuel' old new s'
      end
  end.

Definition py_replace (old new s : pystr) : pystr :=
  match old with
  | [] => new ++ flat_map (fun c => c :: new) s
  | _ :: _ => replace_fuel (S (List.length s)) old new s
  end.

(* ------------------------------------------------------------------ *)
(** ** Transcripts (as produced by [video_transcriber]) *)

Record segment := mkSegment {
  seg_start : Q;
  seg_end : Q;
  seg_text : pystr
}.

Record transcript := mkTranscript {
  t_segments : list segment;
  t_full_text : pystr;
  t_duration : Q
}.

Record chunk := mkChunk {
  c_text : pystr;
  c_start : Q;
  c_end : Q
}.

(** The loop of [chunk_transcript]: [i] is the index of the current
    segment, [n] the number of segments, [chunks] the list built so far,
    [cur_texts], [cur_start], [cur_end] the locals of the same names. *)
Fixpoint chunk_loop (min_chunk_length : Z) (n i : nat) (segs : list segment)
    (chunks : list chunk) (cur_texts : list pystr) (cur_start cur_end : Q)
    : list chunk :=
  match segs with
  | [] => chunks
  | seg :: rest =>
      let cur_start' :=
        match cur_texts with [] => seg_start seg | _ :: _ => cur_start end in
      let cur_texts' := cur_texts ++ [seg_text seg] in
      let cur_end' := seg_end seg in
      let chunk_text := py_join space cur_texts' in
      if (min_chunk_length <=? Z.of_nat (List.length chunk_text))%Z
         || (Z.of_nat i =? Z.of_nat n - 1)%Z
      then chunk_loop min_chunk_length n (S i) rest
             (chunks ++ [mkChunk chunk_text cur_start' cur_end'])
             [] cur_start' cur_end'
      else chunk_loop min_chunk_length n (S i) rest chunks cur_texts'
             cur_start' cur_end'
  end.

(** [chunk_transcript(transcript, min_chunk_length)] *)
Definition chunk_transcript (t : transcript) (min_chunk_length : Z)
    : list chunk :=
  chunk_loop min_chunk_length (List.length (t_segments t)) 0 (t_segments t)
    [] [] 0 0.

(* ------------------------------------------------------------------ *)
(** ** Python values: decoded JSON, exceptions, results *)

Inductive json :=
  | JNull
  | JBool (b : bool)
  | JNum (q : Q)
  | JStr (s : pystr)
  | JArr (xs : list json)
  | JObj (kvs : list (pystr * json)).

(** The exceptions the modelled code can raise. *)
Inductive py_exn :=
  | UnicodeEncodeError   (** [str.encode()] of a lone surrogate *)
  | APIConnectionError   (** the OpenAI client cannot reach the service *)
  | JSONDecodeError      (** [json.loads] on text that is not JSON *)
  | KeyError
  | TypeError
  | AttributeError
  | ValueError
  | IndexError           (** [xs[0]] of an empty list *)
  | NotFoundError        (** ChromaDB: no collection of that name *)
  | InvalidArgumentError (** ChromaDB: a collection name it does not accept *)
  | DuplicateIDError.    (** ChromaDB: an id repeated within one [add] *)

Inductive result (A : Type) :=
  | Ok (a : A)
  | Raise (e : py_exn).
Arguments Ok {A} a.
Arguments Raise {A} e.

Definition bind {A B : Type} (m : result A) (k : A -> result B) : result B :=
  match m with
  | Ok a => k a
  | Raise e => Raise e
  end.

Notation "x <- m ;; k" := (bind m (fun x => k))
  (at level 61, m at next level, right associativity).

Fixpoint pystr_eqb (a b : pystr) : bool :=
  match a, b with
  | [], [] => true
  | x :: a', y :: b' => (x =? y)%N && pystr_eqb a' b'
  | _, _ => false
  end.

(** [d[key]] on a decoded JSON value; [json.loads] keeps the last of
    repeated keys. *)
Definition getitem (v : json) (key : pystr) : result json :=
  match v with
  | JObj kvs =>
      match find (fun kv => pystr_eqb (fst kv) key) (rev kvs) with
      | Some (_, x) => Ok x
      | None => Raise KeyError
      end
  | _ => Raise TypeError
  end.

(** [d.get(key, default)]: only dicts have [get]. *)
Definition dict_get (v : json) (key : pystr) (default : json) : result json :=
  match v with
  | JObj kvs =>
      match find (fun kv => pystr_eqb (fst kv) key) (rev kvs) with
      | Some (_, x) => Ok x
      | None => Ok default
      end
  | _ => Raise AttributeError
  end.

(** [d[key] = value] on a Python dict kept in insertion order. *)
Fixpoint setitem (kvs : list (pystr * json)) (key : pystr) (x : json)
    : list (pystr * json) :=
  match kvs with
  | [] => [(key, x)]
  | (k, y) :: rest =>
      if pystr_eqb k key then (k, x) :: rest else (k, y) :: setitem rest key x
  end.

(** [v == "lit"] for a decoded JSON value and a string literal. *)
Definition json_is_str (v : json) (lit : pystr) : bool :=
  match v with
  | JStr s => pystr_eqb s lit
  | _ => false
  end.

(** The number a JSON value stands for in [x > v] and [v / 2]; [bool] is
    an [int] in Python, anything else makes the comparison a TypeError. *)
Definition as_number (v : json) : result Q :=
  match v with
  | JNum q => Ok q
  | JBool true => Ok 1
  | JBool false => Ok 0
  | _ => Raise TypeError
  end.

(* ------------------------------------------------------------------ *)
(** ** Search results and the time-window computation *)

(** An element of the list returned by [rag_engine.search]. *)
Record search_result := mkResult {
  sr_text : pystr;
  sr_start : Q;
  sr_end : Q;
  sr_relevance : Q
}.

(** An element of the list returned by [find_timestamps_for_topic]. *)
Record timestamp := mkTimestamp {
  ts_start : Q;
  ts_end : Q;
  ts_text : pystr
}.

Definition to_timestamp (r : search_result) : timestamp :=
  mkTimestamp (sr_start r) (sr_end r) (sr_text r).

Definition search_result_json (r : search_result) : json :=
  JObj [(of_ascii "text", JStr (sr_text r)); (of_ascii "start", JNum (sr_start r));
        (of_ascii "end", JNum (sr_end r));
        (of_ascii "relevance", JNum (sr_relevance r))].

(** The window computation of the snippet branch of [handle_user_query]
    (query_handler.py lines 258-265) on the non-empty list
    [t0 :: rest] of timestamps; the source writes the padding as the
    literal [2]. *)
Definition resolve_window (padding max_duration : Q) (t0 : timestamp)
    (rest : list timestamp) : Q * Q :=
  let start := Qmax 0 (fold_left Qmin (map ts_start rest) (ts_start t0) - padding) in
  let end_ := fold_left Qmax (map ts_end rest) (ts_end t0) + padding in
  if Qlt_le_dec max_duration (end_ - start) then
    let center := (ts_start t0 + ts_end t0) / 2 in
    (Qmax 0 (center - max_duration / 2), center + max_duration / 2)
  else (start, end_).

(** The loop of [create_snippet_from_query] (api.py lines 545-557): one
    window per search result, with [padding = 2.0]. *)
Definition snippet_query_window (max_duration : Q) (r : search_result) : Q * Q :=
  let padding := 2 in
  let start := Qmax 0 (sr_start r - padding) in
  let end_ := sr_end r + padding in
  if Qlt_le_dec max_duration (end_ - start) then
    let center := (sr_start r + sr_end r) / 2 in
    (Qmax 0 (center - max_duration / 2), center + max_duration / 2)
  else (start, end_).

Definition snippet_query_windows (max_duration : Q) (results : list search_result)
    : list (Q * Q) :=
  map (snippet_query_window max_duration) results.

(** [_format_time] of query_handler.py: [HH:MM:SS]; [//] and [%] on
    floats round towards minus infinity. *)
Definition format_time (seconds : Q) : pystr :=
  let hours := Qfloor (seconds / 3600) in
  let rem3600 := seconds - 3600 * inject_Z hours in
  let minutes := Qfloor (rem3600 / 60) in
  let secs := Qfloor (seconds - 60 * inject_Z (Qfloor (seconds / 60))) in
  fmt_02d hours ++ of_ascii ":" ++ fmt_02d minutes ++ of_ascii ":" ++ fmt_02d secs.

(* ------------------------------------------------------------------ *)
(** ** The query handler (query_handler.py) *)

Record message := mkMessage {
  msg_role : pystr;
  msg_content : pystr
}.

Section QueryHandler.

(** The content of the reply of the intent-classification chat call
    (lines 50-58), or the client's exception. *)
Variable chat_intent : pystr -> result pystr.
(** [json.loads]: [None] when the text is not JSON. *)
Variable json_loads : pystr -> option json.
(** [rag_engine.search(topic, n_results=n)] *)
Variable rag_search : json -> nat -> result (list search_result).
(** [answer_question], [generate_summary], [_extract_quick_keypoints]:
    one chat call each. *)
Variable answer_question : json -> option transcript -> list message -> result pystr.
Variable generate_summary : transcript -> result pystr.
Variable extract_quick_keypoints : transcript -> result (list json).
(** [video_transcriber.create_video_snippet(video_path, start, end)] *)
Variable create_video_snippet : pystr -> Q -> Q -> result pystr.
(** [str(v)] of a decoded JSON value that is not a string. *)
Variable str_other : json -> pystr.

Definition py_str (v : json) : pystr :=
  match v with
  | JStr s => s
  | _ => str_other v
  end.

(** [detect_intent(user_query)]: [json.loads] of the reply content. *)
Definition detect_intent (user_query : pystr) : result json :=
  content <- chat_intent user_query ;;
  match json_loads content with
  | Some v => Ok v
  | None => Raise JSONDecodeError
  end.

(** [rag_engine.find_timestamps_for_topic(topic, n_results)] *)
Definition find_timestamps_for_topic (topic : json) (n_results : nat)
    : result (list timestamp) :=
  results <- rag_search topic n_results ;;
  Ok (map to_timestamp results).

(** [handle_user_query(user_query, transcript, video_path,
    conversation_history)]; the response dict as its list of items. *)
Definition handle_user_query (user_query : pystr) (tr : option transcript)
    (video_path : option pystr) (conversation_history : list message)
    : result (list (pystr * json)) :=
  intent_result <- detect_intent user_query ;;
  intent <- getitem intent_result (of_ascii "intent") ;;
  topic <- getitem intent_result (of_ascii "topic") ;;
  let response := [(of_ascii "intent", intent); (of_ascii "query", JStr user_query)] in
  if json_is_str intent (of_ascii "search") then
    results <- rag_search topic 5 ;;
    let response := setitem response (of_ascii "results")
                      (JArr (map search_result_json results)) in
    Ok (setitem response (of_ascii "response")
          (JStr (of_ascii "Found " ++ str_of_N (N.of_nat (List.length results))
                 ++ of_ascii " relevant segments for '" ++ py_str topic
                 ++ of_ascii "'")))
  else if json_is_str intent (of_ascii "question") then
    answer <- answer_question topic tr conversation_history ;;
    Ok (setitem response (of_ascii "response") (JStr answer))
  else if json_is_str intent (of_ascii "snippet") then
    timestamps <- find_timestamps_for_topic topic 3 ;;
    match timestamps with
    | t0 :: rest =>
        parameters <- getitem intent_result (of_ascii "parameters") ;;
        md <- dict_get parameters (of_ascii "max_duration") (JNum 60) ;;
        max_duration <- as_number md ;;
        let '(start, end_) := resolve_window 2 max_duration t0 rest in
        let response := setitem response (of_ascii "timestamps")
              (JObj [(of_ascii "start", JNum start); (of_ascii "end", JNum end_)]) in
        let response := setitem response (of_ascii "context") (JStr (ts_text t0)) in
        let response := setitem response (of_ascii "response")
              (JStr (of_ascii "Found content about '" ++ py_str topic
                     ++ of_ascii "' at " ++ format_time start)) in
        match video_path with
        | Some ((_ :: _) as vp) =>
            snippet_path <- create_video_snippet vp start end_ ;;
            Ok (setitem response (of_ascii "snippet_path") (JStr snippet_path))
        | _ => Ok response
        end
    | [] =>
        let response := setitem response (of_ascii "response")
              (JStr (of_ascii "No content found for '" ++ py_str topic
                     ++ of_ascii "'")) in
        Ok (setitem response (of_ascii "timestamps") JNull)
    end
  else if json_is_str intent (of_ascii "summary") then
    match tr with
    | Some t =>
        summary <- generate_summary t ;;
        Ok (setitem response (of_ascii "response") (JStr summary))
    | None =>
        Ok (setitem response (of_ascii "response")
              (JStr (of_ascii "Transcript required for summary")))
    end
  else if json_is_str intent (of_ascii "keypoints") then
    match tr with
    | Some t =>
        key_points <- extract_quick_keypoints t ;;
        let response := setitem response (of_ascii "key_points") (JArr key_points) in
        Ok (setitem response (of_ascii "response")
              (JStr (of_ascii "Found " ++ str_of_N (N.of_nat (List.length key_points))
                     ++ of_ascii " key points from the video")))
    | None =>
        Ok (setitem response (of_ascii "response")
              (JStr (of_ascii "Transcript required for key points")))
    end
  else Ok response.

End QueryHandler.

(* ------------------------------------------------------------------ *)
(** ** The RAG engine (rag_engine.py) *)

(** [s.encode()]: UTF-8; a lone surrogate cannot be encoded. *)
Definition utf8_encode_cp (c : N) : result (list N) :=
  if (c <? 128)%N then Ok [c]
  else if (c <? 2048)%N then Ok [(192 + c / 64)%N; (128 + c mod 64)%N]
  else if ((55296 <=? c)%N && (c <? 57344)%N)%bool then Raise UnicodeEncodeError
  else if (c <? 65536)%N then
    Ok [(224 + c / 4096)%N; (128 + (c / 64) mod 64)%N; (128 + c mod 64)%N]
  else Ok [(240 + c / 262144)%N; (128 + (c / 4096) mod 64)%N;
           (128 + (c / 64) mod 64)%N; (128 + c mod 64)%N].

Fixpoint utf8_encode (s : pystr) : result (list N) :=
  match s with
  | [] => Ok []
  | c :: s' =>
      bs <- utf8_encode_cp c ;;
      rest <- utf8_encode s' ;;
      Ok (bs ++ rest)
  end.

(** A member of a ChromaDB collection: id, document, embedding and the
    metadata [{"start", "end"}] written by [index_transcript]. *)
Record chroma_record := mkRecord {
  rec_id : pystr;
  rec_document : pystr;
  rec_embedding : list Q;
  rec_start : Q;
  rec_end : Q
}.

Definition collection := list chroma_record.

(** The persistent ChromaDB client (its collections by name) and the
    module global [_current_collection_name]. ChromaDB lists collections
    ordered by their generated ids, an order the code never relies on; the
    model keeps them in a list, and what is proved of [list_collections]
    below is about which names it holds. *)
Record rag_state := mkRagState {
  collections : list (pystr * collection);
  current_collection_name : option pystr
}.

Definition lookup_collection (name : pystr) (cs : list (pystr * collection))
    : option collection :=
  match find (fun nc => pystr_eqb (fst nc) name) cs with
  | Some (_, c) => Some c
  | None => None
  end.

Fixpoint store_collection (name : pystr) (c : collection)
    (cs : list (pystr * collection)) : list (pystr * collection) :=
  match cs with
  | [] => [(name, c)]
  | (n, c') :: rest =>
      if pystr_eqb n name then (n, c) :: rest
      else (n, c') :: store_collection name c rest
  end.

Definition set_current (st : rag_state) (name : pystr) : rag_state :=
  mkRagState (collections st) (Some name).

(** [collection.delete(ids=...)] *)
Definition collection_delete (ids : list pystr) (c : collection) : collection :=
  filter (fun r => negb (existsb (pystr_eqb (rec_id r)) ids)) c.

(** Whether a list of ids repeats one. *)
Fixpoint has_duplicate (ids : list pystr) : bool :=
  match ids with
  | [] => false
  | i :: rest => existsb (pystr_eqb i) rest || has_duplicate rest
  end.

(** The records of the parallel lists given to [collection.add]: ids,
    documents, embeddings and the metadatas [{"start", "end"}]. *)
Definition records_of (ids documents : list pystr) (embeddings : list (list Q))
    (metadatas : list (Q * Q)) : list chroma_record :=
  map (fun '(i, (d, (e, m))) => mkRecord i d e (fst m) (snd m))
      (combine ids (combine documents (combine embeddings metadatas))).

(** [collection.add(documents=..., embeddings=..., metadatas=..., ids=...)].
    ChromaDB validates the call before it writes anything: it refuses an
    empty list of ids ([ValueError]), an id given twice
    ([DuplicateIDError]), a field whose length differs from the number of
    ids ([ValueError]) and an empty embedding ([ValueError]). A record whose
    id is already in the collection is ignored. *)
Definition collection_add (ids documents : list pystr) (embeddings : list (list Q))
    (metadatas : list (Q * Q)) (c : collection) : result collection :=
  let n := List.length ids in
  if (n =? 0)%nat then Raise ValueError
  else if has_duplicate ids then Raise DuplicateIDError
  else if negb ((List.length documents =? n) && (List.length embeddings =? n)
                && (List.length metadatas =? n))%nat then Raise ValueError
  else if existsb (fun e => match e with [] => true | _ :: _ => false end) embeddings
  then Raise ValueError
  else
    Ok (c ++ filter (fun r => negb (existsb (fun r' => pystr_eqb (rec_id r') (rec_id r)) c))
               (records_of ids documents embeddings metadatas)).

(** [range(start, stop, step)] for a positive [step]. *)
Definition py_range (start stop step : nat) : list nat :=
  map (fun k => start + k * step)%nat (seq 0 ((stop - start + step - 1) / step)).

Section Embeddings.

(** [client.embeddings.create(model=EMBEDDING_MODEL, input=batch)]: the
    vectors of [response.data], or the client's exception. *)
Variable embeddings_create : list pystr -> result (list (list Q)).

(** [generate_embeddings(texts)] with its batches of 100. *)
Definition generate_embeddings_batched (texts : list pystr) : result (list (list Q)) :=
  fold_left (fun acc i =>
               all_embeddings <- acc ;;
               let batch := firstn 100 (skipn i texts) in
               batch_embeddings <- embeddings_create batch ;;
               Ok (all_embeddings ++ batch_embeddings))
            (py_range 0 (List.length texts) 100) (Ok []).

End Embeddings.

(** The ids [chunk_0], [chunk_1], ... and the metadatas [index_transcript]
    gives the chunks. *)
Definition chunk_ids (chunks : list chunk) : list pystr :=
  map (fun i => of_ascii "chunk_" ++ str_of_N (N.of_nat i)) (seq 0 (List.length chunks)).

Definition chunk_metadatas (chunks : list chunk) : list (Q * Q) :=
  map (fun c => (c_start c, c_end c)) chunks.

(** The records [index_transcript] adds for the chunks and their vectors. *)
Definition chunk_records (chunks : list chunk) (embeddings : list (list Q))
    : list chroma_record :=
  records_of (chunk_ids chunks) (map c_text chunks) embeddings (chunk_metadatas chunks).

(** A hit of [collection.query] as an element of [search]'s result. *)
Definition hit_result (hit : chroma_record * Q) : search_result :=
  let '(r, d) := hit in mkResult (rec_document r) (rec_start r) (rec_end r) (1 - d).

Section RagEngine.

(** The embeddings endpoint, as in [generate_embeddings_batched]. *)
Variable embeddings_create : list pystr -> result (list (list Q)).
(** [hashlib.md5(data).hexdigest()] *)
Variable md5_hexdigest : list N -> pystr.
(** ChromaDB's check of the name of a collection it is asked to create or
    open (3 to 512 characters from [a-zA-Z0-9._-], starting and ending with
    a letter or digit, ...). *)
Variable chroma_valid_name : pystr -> bool.
(** [collection.query(query_embeddings=[q], n_results=n, ...)]: the
    nearest members with their reported distances, nearest first, or the
    exception ChromaDB raises (it refuses [n_results <= 0], for one). *)
Variable chroma_query : collection -> list Q -> Z -> result (list (chroma_record * Q)).

(** [chroma_client.get_or_create_collection(name=..., metadata=...)]:
    ChromaDB refuses a name that fails its check; otherwise the existing
    collection, or a new empty one. *)
Definition get_or_create_collection (name : pystr) (st : rag_state) : result rag_state :=
  if chroma_valid_name name then
    match lookup_collection name (collections st) with
    | Some _ => Ok st
    | None => Ok (mkRagState (collections st ++ [(name, [])]) (current_collection_name st))
    end
  else Raise InvalidArgumentError.

(** The collection name [index_transcript] derives: [video_id] unless it
    is [None] or empty, else a hash of the first 1000 characters. *)
Definition derive_collection_name (t : transcript) (video_id : option pystr)
    : result pystr :=
  vid <- match video_id with
         | Some ((_ :: _) as v) => Ok v
         | _ =>
             data <- utf8_encode (firstn 1000 (t_full_text t)) ;;
             Ok (of_ascii "video_" ++ firstn 12 (md5_hexdigest data))
         end ;;
  Ok (of_ascii "transcript_" ++ vid).

(** [index_transcript(transcript, video_id)]. The client is persistent:
    what a call did before it raised stays done, so the state is returned
    beside the result. *)
Definition index_transcript (st : rag_state) (t : transcript)
    (video_id : option pystr) : rag_state * result pystr :=
  match derive_collection_name t video_id with
  | Raise e => (st, Raise e)
  | Ok collection_name =>
      match get_or_create_collection collection_name st with
      | Raise e => (st, Raise e)
      | Ok st1 =>
          let coll := match lookup_collection collection_name (collections st1) with
                      | Some c => c
                      | None => []
                      end in
          let existing := map rec_id coll in
          let coll := match existing with
                      | [] => coll
                      | _ :: _ => collection_delete existing coll
                      end in
          let st2 := mkRagState (store_collection collection_name coll (collections st1))
                                (current_collection_name st1) in
          let chunks := chunk_transcript t 100 in
          let documents := map c_text chunks in
          let metadatas := chunk_metadatas chunks in
          let ids := chunk_ids chunks in
          match generate_embeddings_batched embeddings_create documents with
          | Raise e => (st2, Raise e)
          | Ok embeddings =>
              match collection_add ids documents embeddings metadatas coll with
              | Raise e => (st2, Raise e)
              | Ok coll' =>
                  (mkRagState (store_collection collection_name coll' (collections st2))
                              (Some collection_name),
                   Ok collection_name)
              end
          end
      end
  end.

(** The part of [search] after [get_collection]: embed the query, ask
    ChromaDB for the nearest members, turn distances into relevances. *)
Definition query_collection (coll : collection) (query : pystr) (n_results : Z)
    : result (list search_result) :=
  embeddings <- generate_embeddings_batched embeddings_create [query] ;;
  query_embedding <- match embeddings with
                     | e :: _ => Ok e
                     | [] => Raise IndexError
                     end ;;
  hits <- chroma_query coll query_embedding n_results ;;
  Ok (map hit_result hits).

(** [search(query, n_results, collection_name)] *)
Definition search (st : rag_state) (query : pystr) (n_results : Z)
    (collection_name : option pystr) : result (list search_result) :=
  name <- match collection_name with
          | Some ((_ :: _) as c) => Ok c
          | _ =>
              match current_collection_name st with
              | Some ((_ :: _) as c) => Ok c
              | _ => Raise ValueError
              end
          end ;;
  coll <- match lookup_collection name (collections st) with
          | Some c => Ok c
          | None => Raise NotFoundError
          end ;;
  query_collection coll query n_results.

(** [collection_exists(collection_name)] *)
Definition collection_exists (name : pystr) (st : rag_state) : bool :=
  match lookup_collection name (collections st) with
  | Some _ => true
  | None => false
  end.

(** [ensure_collection_indexed(collection_name, transcript)] *)
Definition ensure_collection_indexed (st : rag_state) (collection_name : pystr)
    (tr : option transcript) : rag_state * result bool :=
  if collection_exists collection_name st then
    (set_current st collection_name, Ok true)
  else
    match tr with
    | None => (st, Ok false)
    | Some t =>
        match t_segments t with
        | [] => (st, Ok false)
        | _ :: _ =>
            let video_id := py_replace (of_ascii "transcript_") [] collection_name in
            match index_transcript st t (Some video_id) with
            | (st', Ok new_collection_name) => (set_current st' new_collection_name, Ok true)
            | (st', Raise e) => (st', Raise e)
            end
        end
    end.

End RagEngine.

(** The five intent types of the classification prompt. *)
Definition intent_types : list pystr :=
  map of_ascii ["search"; "question"; "snippet"; "summary"; "keypoints"]%string.

(* ------------------------------------------------------------------ *)
(** ** Time formatting *)

(** [video_transcriber.format_timestamp]: [HH:MM:SS], the same code as
    [_format_time] of query_handler.py. *)
Definition format_timestamp (seconds : Q) : pystr :=
  let hours := Qfloor (seconds / 3600) in
  let rem3600 := seconds - 3600 * inject_Z hours in
  let minutes := Qfloor (rem3600 / 60) in
  let secs := Qfloor (seconds - 60 * inject_Z (Qfloor (seconds / 60))) in
  fmt_02d hours ++ of_ascii ":" ++ fmt_02d minutes ++ of_ascii ":" ++ fmt_02d secs.

(** [_format_time] of rag_engine.py: [MM:SS], or [HH:MM:SS] when
    [hours > 0]. *)
Definition rag_format_time (seconds : Q) : pystr :=
  let hours := Qfloor (seconds / 3600) in
  let rem3600 := seconds - 3600 * inject_Z hours in
  let minutes := Qfloor (rem3600 / 60) in
  let secs := Qfloor (seconds - 60 * inject_Z (Qfloor (seconds / 60))) in
  if (0 <? hours)%Z
  then fmt_02d hours ++ of_ascii ":" ++ fmt_02d minutes ++ of_ascii ":" ++ fmt_02d secs
  else fmt_02d minutes ++ of_ascii ":" ++ fmt_02d secs.

(** [_format_duration] of query_handler.py: [{h}h {m}m {s}s], or
    [{m}m {s}s] when [hours > 0] fails. *)
Definition format_duration (seconds : Q) : pystr :=
  let hours := Qfloor (seconds / 3600) in
  let rem3600 := seconds - 3600 * inject_Z hours in
  let minutes := Qfloor (rem3600 / 60) in
  let secs := Qfloor (seconds - 60 * inject_Z (Qfloor (seconds / 60))) in
  if (0 <? hours)%Z
  then str_of_Z hours ++ of_ascii "h " ++ str_of_Z minutes ++ of_ascii "m "
         ++ str_of_Z secs ++ of_ascii "s"
  else str_of_Z minutes ++ of_ascii "m " ++ str_of_Z secs ++ of_ascii "s".

(** The two decimal digits of [z] (for [0 <= z < 100]). *)
Definition digit_pair (z : Z) : pystr :=
  [Z.to_N (48 + z / 10); Z.to_N (48 + z mod 10)].

(* ------------------------------------------------------------------ *)
(** ** More of the RAG engine (rag_engine.py) *)

(** [list_collections()]: the names of the client's collections. *)
Definition list_collections (st : rag_state) : list pystr :=
  map fst (collections st).

(** [get_current_collection()] *)
Definition get_current_collection (st : rag_state) : option pystr :=
  current_collection_name st.

(** [delete_collection(collection_name)]: ChromaDB raises for an absent
    name; otherwise the collection is dropped and the current name reset
    when it was that one. *)
Definition delete_collection (st : rag_state) (collection_name : pystr)
    : result rag_state :=
  match lookup_collection collection_name (collections st) with
  | None => Raise NotFoundError
  | Some _ =>
      let cs := filter (fun nc => negb (pystr_eqb (fst nc) collection_name))
                  (collections st) in
      let cur := match current_collection_name st with
                 | Some c => if pystr_eqb c collection_name then None else Some c
                 | None => None
                 end in
      Ok (mkRagState cs cur)
  end.

(** [set_current_collection(collection_name)]: [get_collection] raises
    for an absent name before the global is written. *)
Definition set_current_collection (st : rag_state) (collection_name : pystr)
    : result rag_state :=
  match lookup_collection collection_name (collections st) with
  | Some _ => Ok (set_current st collection_name)
  | None => Raise NotFoundError
  end.

Definition nl : pystr := [10%N].
Definition dq : pystr := [34%N].

Section RagQueries.

Variable embeddings_create : list pystr -> result (list (list Q)).
Variable chroma_query : collection -> list Q -> Z -> result (list (chroma_record * Q)).

(** [get_context_for_query(query, n_results)] *)
Definition get_context_for_query (st : rag_state) (query : pystr) (n_results : Z)
    : result pystr :=
  results <- search embeddings_create chroma_query st query n_results None ;;
  Ok (py_join (nl ++ nl)
        (map (fun r => of_ascii "[" ++ rag_format_time (sr_start r) ++ of_ascii " - "
                       ++ rag_format_time (sr_end r) ++ of_ascii "]" ++ nl ++ sr_text r)
             results)).

End RagQueries.


(* ------------------------------------------------------------------ *)
(** ** More of the query handler (query_handler.py) *)

(** [text[:limit] + suffix] when [len(text) > limit], else [text]. *)
Definition truncate_text (limit : nat) (suffix text : pystr) : pystr :=
  if Nat.ltb limit (List.length text) then firstn limit text ++ suffix else text.

(** The keyword arguments of a chat call besides [model] and [messages]:
    [reasoning_effort="low"] and [response_format={"type": "json_object"}]. *)
Record chat_options := mkChatOptions {
  reasoning_low : bool;
  json_object : bool
}.

(** [d[key] = x] on a decoded JSON value: a dict gets [key] bound to [x]
    ([json.loads] keeps one entry per key, the last of the text, so every
    occurrence of a repeated key is rebound); any other value raises. *)
Definition json_setitem (v : json) (key : pystr) (x : json) : result json :=
  match v with
  | JObj kvs =>
      if existsb (fun kv => pystr_eqb (fst kv) key) kvs
      then Ok (JObj (map (fun kv => if pystr_eqb (fst kv) key then (fst kv, x) else kv) kvs))
      else Ok (JObj (kvs ++ [(key, x)]))
  | _ => Raise TypeError
  end.

(** Python truthiness of a decoded JSON value. *)
Definition py_truthy (v : json) : bool :=
  match v with
  | JNull => false
  | JBool b => b
  | JNum q => negb (Qeq_bool q 0)
  | JStr s => match s with [] => false | _ :: _ => true end
  | JArr xs => match xs with [] => false | _ :: _ => true end
  | JObj kvs => match kvs with [] => false | _ :: _ => true end
  end.

(** The keys of a decoded dict, once each, in order of first appearance. *)
Fixpoint dict_keys (seen : list pystr) (kvs : list (pystr * json)) : list pystr :=
  match kvs with
  | [] => []
  | (k, _) :: rest =>
      if existsb (pystr_eqb k) seen then dict_keys seen rest
      else k :: dict_keys (k :: seen) rest
  end.

(** [for x in v]: a list yields its items, a string its characters, a dict
    its keys; anything else is not iterable. *)
Definition py_iter (v : json) : result (list json) :=
  match v with
  | JArr xs => Ok xs
  | JStr s => Ok (map (fun c => JStr [c]) s)
  | JObj kvs => Ok (map JStr (dict_keys [] kvs))
  | _ => Raise TypeError
  end.

(** [f"{x:.0f}"] of a number: rounded half to even, ["-0"] for a small
    negative. *)
Definition round_half_even (q : Q) : Z :=
  let f := Qfloor q in
  let r := q - inject_Z f in
  if Qle_bool (1 # 2) r then
    if Qeq_bool r (1 # 2) then (if Z.even f then f else f + 1)%Z else (f + 1)%Z
  else f.

Definition fmt_0f (q : Q) : pystr :=
  if Qle_bool 0 q then str_of_Z (round_half_even q)
  else 45%N :: str_of_N (Z.to_N (- round_half_even q)).

Definition summary_prompt : pystr :=
  of_ascii "Summarize this video transcript in 2-3 concise paragraphs. Focus on the main topics and key information.".

Definition keypoints_prompt : pystr :=
  of_ascii "Extract 5-10 key points from this transcript." ++ nl ++
  of_ascii "Return JSON: {" ++ dq ++ of_ascii "key_points" ++ dq ++ of_ascii ": [{" ++ dq
  ++ of_ascii "title" ++ dq ++ of_ascii ": " ++ dq ++ of_ascii "..." ++ dq ++ of_ascii ", "
  ++ dq ++ of_ascii "summary" ++ dq ++ of_ascii ": " ++ dq ++ of_ascii "..." ++ dq
  ++ of_ascii "}]}".

Definition helper_system_prompt : pystr :=
  of_ascii "You are an expert at analyzing video content and extracting key information." ++ nl ++
  of_ascii "Create a comprehensive helper document from this video transcript." ++ nl ++
  [] ++ nl ++
  of_ascii "Respond with JSON:" ++ nl ++
  of_ascii "{" ++ nl ++
  of_ascii "    " ++ dq ++ of_ascii "overview" ++ dq ++ of_ascii ": " ++ dq ++ of_ascii "2-3 paragraph overview of the video" ++ dq ++ of_ascii "," ++ nl ++
  of_ascii "    " ++ dq ++ of_ascii "key_points" ++ dq ++ of_ascii ": [" ++ nl ++
  of_ascii "        {" ++ nl ++
  of_ascii "            " ++ dq ++ of_ascii "title" ++ dq ++ of_ascii ": " ++ dq ++ of_ascii "Brief title (5-10 words)" ++ dq ++ of_ascii "," ++ nl ++
  of_ascii "            " ++ dq ++ of_ascii "summary" ++ dq ++ of_ascii ": " ++ dq ++ of_ascii "Detailed explanation (2-4 sentences)" ++ dq ++ of_ascii "," ++ nl ++
  of_ascii "            " ++ dq ++ of_ascii "timestamp_start" ++ dq ++ of_ascii ": <start time in seconds>," ++ nl ++
  of_ascii "            " ++ dq ++ of_ascii "timestamp_end" ++ dq ++ of_ascii ": <end time in seconds>," ++ nl ++
  of_ascii "            " ++ dq ++ of_ascii "importance" ++ dq ++ of_ascii ": " ++ dq ++ of_ascii "high" ++ dq ++ of_ascii " | " ++ dq ++ of_ascii "medium" ++ dq ++ of_ascii " | " ++ dq ++ of_ascii "low" ++ dq ++ nl ++
  of_ascii "        }" ++ nl ++
  of_ascii "    ]," ++ nl ++
  of_ascii "    " ++ dq ++ of_ascii "action_items" ++ dq ++ of_ascii ": [" ++ dq ++ of_ascii "List of actionable takeaways" ++ dq ++ of_ascii "]" ++ nl ++
  of_ascii "}" ++ nl ++
  [] ++ nl ++
  of_ascii "Extract 5-15 key points depending on video length." ++ nl ++
  of_ascii "Ensure timestamps accurately reflect where each point is discussed.".

(** [_format_transcript_with_timestamps(transcript)] *)
Definition format_transcript_with_timestamps (t : transcript) : pystr :=
  py_join nl
    (map (fun seg => of_ascii "[" ++ format_time (seg_start seg) ++ of_ascii " - "
                     ++ format_time (seg_end seg) ++ of_ascii "] " ++ seg_text seg)
         (t_segments t)).

Section ChatCalls.

(** The content of the first choice of [client.chat.completions.create]
    with these options and messages, or the client's exception. *)
Variable chat : chat_options -> list message -> result pystr.
Variable json_loads : pystr -> option json.
Variable str_other : json -> pystr.

(** [generate_summary(transcript)] *)
Definition generate_summary (t : transcript) : result pystr :=
  let text := truncate_text 100000 (of_ascii "...") (t_full_text t) in
  chat (mkChatOptions true false)
    [mkMessage (of_ascii "developer") summary_prompt; mkMessage (of_ascii "user") text].

(** [_extract_quick_keypoints(transcript)]: [result.get("key_points", [])]
    of the decoded reply. *)
Definition extract_quick_keypoints (t : transcript) : result json :=
  let text := truncate_text 100000 (of_ascii "...") (t_full_text t) in
  content <- chat (mkChatOptions true true)
               [mkMessage (of_ascii "developer") keypoints_prompt;
                mkMessage (of_ascii "user") text] ;;
  match json_loads content with
  | Some result => dict_get result (of_ascii "key_points") (JArr [])
  | None => Raise JSONDecodeError
  end.

(** [generate_helper_document(transcript, video_title)] *)
Definition generate_helper_document (t : transcript) (video_title : pystr)
    : result json :=
  let formatted := format_transcript_with_timestamps t in
  let formatted := truncate_text 200000 (nl ++ of_ascii "...[truncated]") formatted in
  content <- chat (mkChatOptions false true)
               [mkMessage (of_ascii "developer") helper_system_prompt;
                mkMessage (of_ascii "user")
                  (of_ascii "Video: " ++ video_title ++ nl ++ of_ascii "Duration: "
                   ++ fmt_0f (t_duration t) ++ of_ascii "s" ++ nl ++ nl
                   ++ of_ascii "Transcript:" ++ nl ++ formatted)] ;;
  match json_loads content with
  | Some result =>
      result <- json_setitem result (of_ascii "title") (JStr video_title) ;;
      json_setitem result (of_ascii "duration") (JNum (t_duration t))
  | None => Raise JSONDecodeError
  end.

(** The key-point loop of [format_helper_document_markdown], numbering
    from [i]. *)
Fixpoint key_points_md (md : pystr) (i : N) (kps : list json) : result pystr :=
  match kps with
  | [] => Ok md
  | kp :: rest =>
      ts <- getitem kp (of_ascii "timestamp_start") ;;
      tsq <- as_number ts ;;
      let timestamp := format_time tsq in
      title <- getitem kp (of_ascii "title") ;;
      let md := md ++ of_ascii "### " ++ str_of_N i ++ of_ascii ". "
                   ++ py_str str_other title ++ nl in
      importance <- getitem kp (of_ascii "importance") ;;
      let md := md ++ of_ascii "**Timestamp:** " ++ timestamp
                   ++ of_ascii " | **Importance:** " ++ py_str str_other importance
                   ++ nl ++ nl in
      shot <- dict_get kp (of_ascii "screenshot_url") JNull ;;
      md <- (if py_truthy shot then
               url <- getitem kp (of_ascii "screenshot_url") ;;
               Ok (md ++ of_ascii "![Screenshot at " ++ timestamp ++ of_ascii "]("
                      ++ py_str str_other url ++ of_ascii ")" ++ nl ++ nl)
             else Ok md) ;;
      summary <- getitem kp (of_ascii "summary") ;;
      key_points_md (md ++ py_str str_other summary ++ nl ++ nl) (i + 1)%N rest
  end.

(** [format_helper_document_markdown(doc)] *)
Definition format_helper_document_markdown (doc : json) : result pystr :=
  title <- getitem doc (of_ascii "title") ;;
  let md := of_ascii "# " ++ py_str str_other title ++ nl ++ nl in
  duration <- getitem doc (of_ascii "duration") ;;
  d <- as_number duration ;;
  let md := md ++ of_ascii "**Duration:** " ++ format_duration d ++ nl ++ nl in
  overview <- getitem doc (of_ascii "overview") ;;
  let md := md ++ of_ascii "## Overview" ++ nl ++ nl ++ py_str str_other overview
               ++ nl ++ nl in
  let md := md ++ of_ascii "## Key Points" ++ nl ++ nl in
  key_points <- getitem doc (of_ascii "key_points") ;;
  kps <- py_iter key_points ;;
  md <- key_points_md md 1 kps ;;
  action_items <- dict_get doc (of_ascii "action_items") JNull ;;
  if py_truthy action_items then
    items_v <- getitem doc (of_ascii "action_items") ;;
    items <- py_iter items_v ;;
    Ok (md ++ of_ascii "## Action Items" ++ nl ++ nl
           ++ List.concat (map (fun item => of_ascii "- " ++ py_str str_other item ++ nl)
                            items))
  else Ok md.

End ChatCalls.

(* ------------------------------------------------------------------ *)
(** ** Snippet file names (api.py, [create_snippet_from_query]) *)

(** [c.isalnum()] of one character: for ASCII exactly the letters and
    digits; beyond ASCII it follows the Unicode database. *)
Definition ascii_alnum (c : N) : bool :=
  ((48 <=? c)%N && (c <=? 57)%N) || ((65 <=? c)%N && (c <=? 90)%N)
  || ((97 <=? c)%N && (c <=? 122)%N).

(** [int(x)] of a float: truncation towards zero. *)
Definition py_int (x : Q) : Z :=
  if Qle_bool 0 x then Qfloor x else (- Qfloor (- x))%Z.

Section SnippetNames.

Variable unicode_isalnum : N -> bool.

Definition py_isalnum (c : N) : bool :=
  if (c <? 128)%N then ascii_alnum c else unicode_isalnum c.

(** [''.join(c if c.isalnum() or c in "._-" else "_" for c in name)] *)
Definition sanitize_output_name (name : pystr) : pystr :=
  map (fun c => if py_isalnum c || existsb (N.eqb c) (of_ascii "._-") then c else 95%N)
      name.

(** The file name of the [i]-th result ([i] from 0) of
    [create_snippet_from_query] for a local video (api.py 577-578). *)
Definition snippet_output_name (query : pystr) (i : nat) (start end_ : Q) : pystr :=
  sanitize_output_name
    (of_ascii "snippet_" ++ firstn 20 query ++ of_ascii "_"
     ++ str_of_N (N.of_nat (i + 1)) ++ of_ascii "_" ++ str_of_Z (py_int start)
     ++ of_ascii "-" ++ str_of_Z (py_int end_) ++ of_ascii ".mp4").

End SnippetNames.

(** The value of a string of decimal digits. *)
Definition digits_val (ds : pystr) : N :=
  fold_left (fun acc c => acc * 10 + (c - 48))%N ds 0%N.

(** The chunk [chunk_transcript] makes of a run of consecutive segments:
    their texts joined by spaces, from the first one's start to the last
    one's end. *)
Definition chunk_of_run (g : list segment) : chunk :=
  mkChunk (py_join space (map seg_text g))
          (seg_start (hd (mkSegment 0 0 []) g))
          (seg_end (last g (mkSegment 0 0 []))).

(* ================================================================== *)
(** * Proofs *)

(** ** Joining *)

Lemma py_join_app (sep : pystr) (xs ys : list pystr) :
  xs <> [] -> ys <> [] ->
  py_join sep (xs ++ ys) = py_join sep xs ++ sep ++ py_join sep ys.
Proof.
  intros Hx Hy. induction xs as [|x xs IH]; [congruence|].
  destruct xs as [|x' xs'].
  - simpl. destruct ys; [congruence|reflexivity].
  - transitivity (x ++ sep ++ py_join sep ((x' :: xs') ++ ys));
      [reflexivity|].
    rewrite IH by discriminate.
    change (py_join sep (x :: x' :: xs'))
      with (x ++ sep ++ py_join sep (x' :: xs')).
    now rewrite !app_assoc.
Qed.

Lemma concat_nonempty (G : list (list pystr)) :
  Forall (fun g => g <> []) G -> G <> [] -> List.concat G <> [].
Proof.
  intros HF HG. destruct G as [|g G]; [congruence|].
  inversion HF; subst. simpl. destruct g; [congruence|discriminate].
Qed.

Lemma py_join_concat (sep : pystr) (G : list (list pystr)) :
  Forall (fun g => g <> []) G ->
  py_join sep (map (py_join sep) G) = py_join sep (List.concat G).
Proof.
  induction G as [|g G IH]; intros HF; [reflexivity|].
  inversion HF as [|? ? Hg HG]; subst.
  destruct G as [|g' G'].
  - simpl. now rewrite app_nil_r.
  - transitivity (py_join sep g ++ sep ++ py_join sep (map (py_join sep) (g' :: G')));
      [reflexivity|].
    rewrite IH by assumption.
    change (List.concat (g :: g' :: G')) with (g ++ List.concat (g' :: G')).
    rewrite (py_join_app sep g (List.concat (g' :: G'))); try assumption.
    + reflexivity.
    + apply concat_nonempty; [assumption|discriminate].
Qed.

(** ** The chunking loop *)

Lemma chunk_loop_groups (m : Z) (n : nat) (segs : list segment) :
  forall i chunks cur cs ce G0,
  map c_text chunks = map (py_join space) G0 ->
  Forall (fun g => g <> []) G0 ->
  (i + List.length segs)%nat = n ->
  (segs = [] -> cur = []) ->
  exists G,
    map c_text (chunk_loop m n i segs chunks cur cs ce) = map (py_join space) G
    /\ Forall (fun g => g <> []) G
    /\ List.concat G = List.concat G0 ++ cur ++ map seg_text segs.
Proof.
  induction segs as [|seg rest IH]; intros i chunks cur cs ce G0 Hc HF Hn Hcur.
  - exists G0. rewrite Hcur by reflexivity. simpl.
    repeat split; try assumption. now rewrite !app_nil_r.
  - cbn [chunk_loop].
    set (cond := ((m <=? _)%Z || _)%bool).
    destruct cond eqn:Hcond.
    + destruct (IH (S i) (chunks ++ [mkChunk (py_join space (cur ++ [seg_text seg]))
                   (match cur with [] => seg_start seg | _ :: _ => cs end)
                   (seg_end seg)]) [] 
                   (match cur with [] => seg_start seg | _ :: _ => cs end)
                   (seg_end seg) (G0 ++ [cur ++ [seg_text seg]]))
        as (G & HG1 & HG2 & HG3).
      * rewrite !map_app, Hc. reflexivity.
      * apply Forall_app. split; [assumption|].
        constructor; [|constructor]. destruct cur; discriminate.
      * simpl in Hn. lia.
      * reflexivity.
      * exists G. repeat split; try assumption.
        rewrite HG3, concat_app. simpl. now rewrite !app_nil_r, <- !app_assoc.
    + destruct (IH (S i) chunks (cur ++ [seg_text seg])
                   (match cur with [] => seg_start seg | _ :: _ => cs end)
                   (seg_end seg) G0) as (G & HG1 & HG2 & HG3); try assumption.
      * simpl in Hn. lia.
      * intros ->. exfalso. simpl in Hn.
        assert (Hi : (Z.of_nat i =? Z.of_nat n - 1)%Z = true)
          by (apply Z.eqb_eq; lia).
        unfold cond in Hcond. rewrite Hi, orb_true_r in Hcond. discriminate.
      * exists G. repeat split; try assumption.
        rewrite HG3. simpl. now rewrite <- !app_assoc.
Qed.

(** ** Claim C4 *)

(** C4: chunking drops no content.  Joining the chunk texts of
    [chunk_transcript] with single spaces gives exactly the segment texts
    joined with single spaces (every segment appears, in order), and an
    empty segment list yields no chunk. *)
Theorem chunk_transcript_covers_text (t : transcript) (min_chunk_length : Z) :
  py_join space (map c_text (chunk_transcript t min_chunk_length))
    = py_join space (map seg_text (t_segments t))
  /\ (t_segments t = [] -> chunk_transcript t min_chunk_length = []).
Proof.
  split.
  - unfold chunk_transcript.
    destruct (chunk_loop_groups min_chunk_length (List.length (t_segments t))
                (t_segments t) 0 [] [] 0 0 []) as (G & HG1 & HG2 & HG3).
    + reflexivity.
    + constructor.
    + reflexivity.
    + reflexivity.
    + rewrite HG1, py_join_concat by assumption. now rewrite HG3.
  - intros H. unfold chunk_transcript. now rewrite H.
Qed.

(** ** Minimum and maximum of a list of times *)

Lemma Qmin_choice (x y : Q) : Qmin x y = x \/ Qmin x y = y.
Proof. unfold Qmin, GenericMinMax.gmin. destruct (x ?= y); auto. Qed.

Lemma Qmax_choice (x y : Q) : Qmax x y = x \/ Qmax x y = y.
Proof. unfold Qmax, GenericMinMax.gmax. destruct (x ?= y); auto. Qed.

Lemma fold_Qmin_spec (l : list Q) : forall x,
  In (fold_left Qmin l x) (x :: l)
  /\ Forall (fun y => fold_left Qmin l x <= y) (x :: l).
Proof.
  induction l as [|a l IH]; intros x.
  - split; [now left|]. constructor; [apply Qle_refl|constructor].
  - simpl. destruct (IH (Qmin x a)) as [Hin Hle].
    inversion Hle as [|? ? Hm Hrest]; subst.
    split.
    + destruct Hin as [Heq|Hin]; [|right; right; exact Hin].
      rewrite <- Heq. destruct (Qmin_choice x a) as [-> | ->]; auto.
    + constructor; [|constructor].
      * eapply Qle_trans; [exact Hm|apply Q.le_min_l].
      * eapply Qle_trans; [exact Hm|apply Q.le_min_r].
      * exact Hrest.
Qed.

Lemma fold_Qmax_spec (l : list Q) : forall x,
  In (fold_left Qmax l x) (x :: l)
  /\ Forall (fun y => y <= fold_left Qmax l x) (x :: l).
Proof.
  induction l as [|a l IH]; intros x.
  - split; [now left|]. constructor; [apply Qle_refl|constructor].
  - simpl. destruct (IH (Qmax x a)) as [Hin Hle].
    inversion Hle as [|? ? Hm Hrest]; subst.
    split.
    + destruct Hin as [Heq|Hin]; [|right; right; exact Hin].
      rewrite <- Heq. destruct (Qmax_choice x a) as [-> | ->]; auto.
    + constructor; [|constructor].
      * eapply Qle_trans; [apply Q.le_max_l|exact Hm].
      * eapply Qle_trans; [apply Q.le_max_r|exact Hm].
      * exact Hrest.
Qed.

(** ** Claim C2 *)

(** C2: the time-window computation widens to
    [start = max(0, min starts - padding)], [end = max ends + padding] over
    all candidate spans and, exactly when [end - start > max_duration],
    replaces this by the window of width [max_duration] centred on the
    midpoint of the first span, its start floored at 0.  On the spec's two
    scenarios it gives [{75, 135}] and [{8, 14}]. *)
Theorem resolve_window_widen_then_clamp (padding max_duration : Q)
    (t0 : timestamp) (rest : list timestamp) :
  (exists lo hi,
     In lo (map ts_start (t0 :: rest))
     /\ Forall (fun s => lo <= s) (map ts_start (t0 :: rest))
     /\ In hi (map ts_end (t0 :: rest))
     /\ Forall (fun e => e <= hi) (map ts_end (t0 :: rest))
     /\ let start := Qmax 0 (lo - padding) in
        let end_ := hi + padding in
        let center := (ts_start t0 + ts_end t0) / 2 in
        resolve_window padding max_duration t0 rest
          = if Qlt_le_dec max_duration (end_ - start)
            then (Qmax 0 (center - max_duration / 2), center + max_duration / 2)
            else (start, end_))
  /\ (let w := resolve_window 2 60 (mkTimestamp 10 200 []) [] in
      fst w == 75 /\ snd w == 135)
  /\ (let w := resolve_window 2 60 (mkTimestamp 10 12 []) [] in
      fst w == 8 /\ snd w == 14).
Proof.
  split; [|split; vm_compute; split; reflexivity].
  exists (fold_left Qmin (map ts_start rest) (ts_start t0)),
         (fold_left Qmax (map ts_end rest) (ts_end t0)).
  destruct (fold_Qmin_spec (map ts_start rest) (ts_start t0)) as [H1 H2].
  destruct (fold_Qmax_spec (map ts_end rest) (ts_end t0)) as [H3 H4].
  repeat split; assumption.
Qed.

(** ** The snippet branch of [handle_user_query] *)

Section SnippetBranch.

Variables (chat_intent : pystr -> result pystr) (json_loads : pystr -> option json)
  (rag_search : json -> nat -> result (list search_result))
  (answer_question : json -> option transcript -> list message -> result pystr)
  (generate_summary : transcript -> result pystr)
  (extract_quick_keypoints : transcript -> result (list json))
  (create_video_snippet : pystr -> Q -> Q -> result pystr)
  (str_other : json -> pystr).

Let handle := handle_user_query chat_intent json_loads rag_search answer_question
  generate_summary extract_quick_keypoints create_video_snippet str_other.

Lemma handle_snippet_branch (q : pystr) (tr : option transcript)
    (vp : option pystr) (hist : list message) (ir topic params md : json)
    (r0 : search_result) (rest : list search_result) :
  detect_intent chat_intent json_loads q = Ok ir ->
  getitem ir (of_ascii "intent") = Ok (JStr (of_ascii "snippet")) ->
  getitem ir (of_ascii "topic") = Ok topic ->
  rag_search topic 3%nat = Ok (r0 :: rest) ->
  getitem ir (of_ascii "parameters") = Ok params ->
  dict_get params (of_ascii "max_duration") (JNum 60) = Ok md ->
  handle q tr vp hist =
    max_duration <- as_number md ;;
    let '(start, end_) :=
      resolve_window 2 max_duration (to_timestamp r0) (map to_timestamp rest) in
    let response :=
      setitem (setitem (setitem
        [(of_ascii "intent", JStr (of_ascii "snippet")); (of_ascii "query", JStr q)]
        (of_ascii "timestamps")
          (JObj [(of_ascii "start", JNum start); (of_ascii "end", JNum end_)]))
        (of_ascii "context") (JStr (sr_text r0)))
        (of_ascii "response")
          (JStr (of_ascii "Found content about '" ++ py_str str_other topic
                 ++ of_ascii "' at " ++ format_time start)) in
    match vp with
    | Some ((_ :: _) as p) =>
        snippet_path <- create_video_snippet p start end_ ;;
        Ok (setitem response (of_ascii "snippet_path") (JStr snippet_path))
    | _ => Ok response
    end.
Proof.
  intros Hdet Hint Htop Hsearch Hpar Hmd.
  unfold handle, handle_user_query, find_timestamps_for_topic.
  rewrite Hdet. cbn [bind]. rewrite Hint, Htop. cbn [bind].
  rewrite Hsearch. cbn [bind map]. rewrite Hpar. cbn [bind].
  set (D := dict_get params _ _) in *. rewrite Hmd. cbn [bind]. cbn [bind].
  reflexivity.
Qed.

End SnippetBranch.

(** ** Claim C6 *)

(** C6 (defect): the classifier is told to answer [null] for a
    [max_duration] the user did not mention, but [.get("max_duration", 60)]
    only defaults an absent key, so the comparison [end - start > None]
    raises a TypeError: a snippet query for "the intro" with one search hit
    at [10, 12] fails instead of yielding a window of at most 60 s. *)
Theorem snippet_null_max_duration_type_error :
  handle_user_query
    (fun _ => Ok (of_ascii "{...}"))
    (fun _ => Some (JObj [(of_ascii "intent", JStr (of_ascii "snippet"));
                         (of_ascii "topic", JStr (of_ascii "the intro"));
                         (of_ascii "parameters",
                            JObj [(of_ascii "max_duration", JNull);
                                  (of_ascii "detail_level", JNull)])]))
    (fun _ _ => Ok [mkResult (of_ascii "welcome to the course") 10 12 (9 # 10)])
    (fun _ _ _ => Ok []) (fun _ => Ok []) (fun _ => Ok []) (fun _ _ _ => Ok [])
    (fun _ => [])
    (of_ascii "make a clip about the intro") None None []
  = Raise TypeError.
Proof. vm_compute. reflexivity. Qed.

(** ** Claim C7 *)

(** The batch path's window for one result is the resolver on that
    result's span alone. *)
Lemma snippet_query_window_single (max_duration : Q) (r : search_result) :
  snippet_query_window max_duration r
    = resolve_window 2 max_duration (to_timestamp r) [].
Proof. reflexivity. Qed.

(** C7 (counterexample): for the same two ranked results [10, 12] and
    [20, 22] with padding 2 and max_duration 60, the snippet strategy of
    [handle_user_query] answers the single window [8, 24], while the batch
    path of [create_snippet_from_query] answers the two windows [8, 14] and
    [18, 24]. *)
Lemma snippet_paths_differ_on_two_results :
  let rs := [mkResult (of_ascii "a") 10 12 (9 # 10);
             mkResult (of_ascii "b") 20 22 (8 # 10)] in
  (exists resp,
     handle_user_query
       (fun _ => Ok (of_ascii "{...}"))
       (fun _ => Some (JObj [(of_ascii "intent", JStr (of_ascii "snippet"));
                            (of_ascii "topic", JStr (of_ascii "x"));
                            (of_ascii "parameters",
                               JObj [(of_ascii "max_duration", JNum 60)])]))
       (fun _ _ => Ok rs)
       (fun _ _ _ => Ok []) (fun _ => Ok []) (fun _ => Ok []) (fun _ _ _ => Ok [])
       (fun _ => []) (of_ascii "clip x") None None []
     = Ok resp
     /\ getitem (JObj resp) (of_ascii "timestamps")
        = Ok (JObj [(of_ascii "start", JNum 8); (of_ascii "end", JNum 24)]))
  /\ snippet_query_windows 60 rs = [(8, 14); (18, 24)]
  /\ ~ In (8, 24) (snippet_query_windows 60 rs).
Proof.
  split; [|split].
  - eexists. split; [vm_compute; reflexivity|vm_compute; reflexivity].
  - vm_compute. reflexivity.
  - vm_compute. intros [H|[H|H]]; [congruence|congruence|exact H].
Qed.

(** C7 (amended): both paths apply the same widen-then-clamp rule with
    padding 2, but to different candidate spans.  The batch path resolves
    every search result on its own span (one window per result); the
    snippet strategy resolves one window from the spans of all its (top 3)
    results, recentring on the first.  On a single result the two
    coincide. *)
Theorem snippet_paths_same_rule_different_spans
    (chat_intent : pystr -> result pystr) (json_loads : pystr -> option json)
    (rag_search : json -> nat -> result (list search_result))
    (answer_question : json -> option transcript -> list message -> result pystr)
    (generate_summary : transcript -> result pystr)
    (extract_quick_keypoints : transcript -> result (list json))
    (create_video_snippet : pystr -> Q -> Q -> result pystr)
    (str_other : json -> pystr)
    (q : pystr) (tr : option transcript) (hist : list message)
    (ir topic params : json) (m : Q) (r0 : search_result) (rest : list search_result) :
  detect_intent chat_intent json_loads q = Ok ir ->
  getitem ir (of_ascii "intent") = Ok (JStr (of_ascii "snippet")) ->
  getitem ir (of_ascii "topic") = Ok topic ->
  rag_search topic 3%nat = Ok (r0 :: rest) ->
  getitem ir (of_ascii "parameters") = Ok params ->
  dict_get params (of_ascii "max_duration") (JNum 60) = Ok (JNum m) ->
  let w := resolve_window 2 m (to_timestamp r0) (map to_timestamp rest) in
  (forall max_duration rs,
     snippet_query_windows max_duration rs
       = map (fun r => resolve_window 2 max_duration (to_timestamp r) []) rs)
  /\ (exists resp,
        handle_user_query chat_intent json_loads rag_search answer_question
          generate_summary extract_quick_keypoints create_video_snippet str_other
          q tr None hist = Ok resp
        /\ getitem (JObj resp) (of_ascii "timestamps")
           = Ok (JObj [(of_ascii "start", JNum (fst w)); (of_ascii "end", JNum (snd w))]))
  /\ (rest = [] -> snippet_query_windows m [r0] = [w]).
Proof.
  intros Hdet Hint Htop Hsearch Hpar Hmd w.
  split; [|split].
  - intros max_duration rs. unfold snippet_query_windows.
    apply map_ext. intros r. apply snippet_query_window_single.
  - rewrite (handle_snippet_branch chat_intent json_loads rag_search answer_question
               generate_summary extract_quick_keypoints create_video_snippet str_other
               q tr None hist ir topic params (JNum m) r0 rest)
      by assumption.
    cbn [as_number bind]. fold w. destruct w as [s e].
    eexists. split; [reflexivity|]. vm_compute. reflexivity.
  - intros ->. reflexivity.
Qed.

(** ** Claims C8 and C9: intent classification and the router *)

Section Router.

Variables (chat_intent : pystr -> result pystr) (json_loads : pystr -> option json)
  (rag_search : json -> nat -> result (list search_result))
  (answer_question : json -> option transcript -> list message -> result pystr)
  (generate_summary : transcript -> result pystr)
  (extract_quick_keypoints : transcript -> result (list json))
  (create_video_snippet : pystr -> Q -> Q -> result pystr)
  (str_other : json -> pystr).

Let handle := handle_user_query chat_intent json_loads rag_search answer_question
  generate_summary extract_quick_keypoints create_video_snippet str_other.

Lemma handle_detect_error (q : pystr) (tr : option transcript) (vp : option pystr)
    (hist : list message) (e : py_exn) :
  detect_intent chat_intent json_loads q = Raise e -> handle q tr vp hist = Raise e.
Proof. intros H. unfold handle, handle_user_query. now rewrite H. Qed.

Lemma handle_after_intent (q : pystr) (tr : option transcript) (vp : option pystr)
    (hist : list message) (ir i topic : json) :
  detect_intent chat_intent json_loads q = Ok ir ->
  getitem ir (of_ascii "intent") = Ok i ->
  getitem ir (of_ascii "topic") = Ok topic ->
  existsb (json_is_str i) intent_types = false ->
  handle q tr vp hist = Ok [(of_ascii "intent", i); (of_ascii "query", JStr q)].
Proof.
  intros Hdet Hint Htop Hnone.
  unfold intent_types in Hnone. cbn [map existsb] in Hnone.
  repeat rewrite orb_false_iff in Hnone.
  destruct Hnone as (E1 & E2 & E3 & E4 & E5 & _).
  unfold handle, handle_user_query. rewrite Hdet. cbn [bind].
  rewrite Hint, Htop. cbn [bind].
  rewrite E1, E2, E3, E4, E5. reflexivity.
Qed.

Lemma handle_summary_no_transcript (q : pystr) (vp : option pystr)
    (hist : list message) (ir topic : json) :
  detect_intent chat_intent json_loads q = Ok ir ->
  getitem ir (of_ascii "intent") = Ok (JStr (of_ascii "summary")) ->
  getitem ir (of_ascii "topic") = Ok topic ->
  handle q None vp hist =
    Ok [(of_ascii "intent", JStr (of_ascii "summary")); (of_ascii "query", JStr q);
        (of_ascii "response", JStr (of_ascii "Transcript required for summary"))].
Proof.
  intros Hdet Hint Htop. unfold handle, handle_user_query.
  rewrite Hdet. cbn [bind]. rewrite Hint, Htop. cbn [bind]. reflexivity.
Qed.

Lemma handle_keypoints_no_transcript (q : pystr) (vp : option pystr)
    (hist : list message) (ir topic : json) :
  detect_intent chat_intent json_loads q = Ok ir ->
  getitem ir (of_ascii "intent") = Ok (JStr (of_ascii "keypoints")) ->
  getitem ir (of_ascii "topic") = Ok topic ->
  handle q None vp hist =
    Ok [(of_ascii "intent", JStr (of_ascii "keypoints")); (of_ascii "query", JStr q);
        (of_ascii "response", JStr (of_ascii "Transcript required for key points"))].
Proof.
  intros Hdet Hint Htop. unfold handle, handle_user_query.
  rewrite Hdet. cbn [bind]. rewrite Hint, Htop. cbn [bind]. reflexivity.
Qed.

End Router.

(** C8 (counterexample): the classifier's reply is not checked against the
    five intents: a reply [{"intent": "chitchat", "topic": "hello"}] is
    returned by [detect_intent] as it is, and [handle_user_query] answers
    it with a response carrying only the intent and the query. *)
Lemma detect_intent_accepts_unknown_intent :
  let reply := JObj [(of_ascii "intent", JStr (of_ascii "chitchat"));
                     (of_ascii "topic", JStr (of_ascii "hello"))] in
  detect_intent (fun _ => Ok (of_ascii "{...}")) (fun _ => Some reply)
    (of_ascii "hello there") = Ok reply
  /\ getitem reply (of_ascii "intent") = Ok (JStr (of_ascii "chitchat"))
  /\ existsb (json_is_str (JStr (of_ascii "chitchat"))) intent_types = false
  /\ handle_user_query (fun _ => Ok (of_ascii "{...}")) (fun _ => Some reply)
       (fun _ _ => Ok []) (fun _ _ _ => Ok []) (fun _ => Ok []) (fun _ => Ok [])
       (fun _ _ _ => Ok []) (fun _ => []) (of_ascii "hello there") None None []
     = Ok [(of_ascii "intent", JStr (of_ascii "chitchat"));
           (of_ascii "query", JStr (of_ascii "hello there"))].
Proof. repeat split; vm_compute; reflexivity. Qed.

(** C8 (amended): [detect_intent] returns the decoded reply unvalidated.
    A failure of the chat call propagates out of [handle_user_query]
    unchanged; a reply that is not JSON makes it raise [JSONDecodeError];
    a decoded reply is returned as it is, and one whose intent is none of
    the five is routed nowhere: the response holds only the intent and the
    query.  No default intent is ever substituted. *)
Theorem detect_intent_unvalidated_errors_propagate
    (chat_intent : pystr -> result pystr) (json_loads : pystr -> option json)
    (rag_search : json -> nat -> result (list search_result))
    (answer_question : json -> option transcript -> list message -> result pystr)
    (generate_summary : transcript -> result pystr)
    (extract_quick_keypoints : transcript -> result (list json))
    (create_video_snippet : pystr -> Q -> Q -> result pystr)
    (str_other : json -> pystr)
    (q : pystr) (tr : option transcript) (vp : option pystr) (hist : list message) :
  let handle := handle_user_query chat_intent json_loads rag_search answer_question
    generate_summary extract_quick_keypoints create_video_snippet str_other in
  (forall e, chat_intent q = Raise e -> handle q tr vp hist = Raise e)
  /\ (forall c, chat_intent q = Ok c -> json_loads c = None ->
        handle q tr vp hist = Raise JSONDecodeError)
  /\ (forall c v, chat_intent q = Ok c -> json_loads c = Some v ->
        detect_intent chat_intent json_loads q = Ok v)
  /\ (forall ir i topic,
        detect_intent chat_intent json_loads q = Ok ir ->
        getitem ir (of_ascii "intent") = Ok i ->
        getitem ir (of_ascii "topic") = Ok topic ->
        existsb (json_is_str i) intent_types = false ->
        handle q tr vp hist = Ok [(of_ascii "intent", i); (of_ascii "query", JStr q)]).
Proof.
  intros handle. split; [|split; [|split]].
  - intros e He. apply handle_detect_error.
    unfold detect_intent. now rewrite He.
  - intros c Hc Hl. apply handle_detect_error.
    unfold detect_intent. rewrite Hc. cbn [bind]. now rewrite Hl.
  - intros c v Hc Hl. unfold detect_intent. rewrite Hc. cbn [bind]. now rewrite Hl.
  - intros ir i topic Hdet Hint Htop Hnone.
    apply (handle_after_intent _ _ _ _ _ _ _ _ q tr vp hist ir i topic); assumption.
Qed.

(** C8 witness: a reply outside the five intents, through the theorem. *)
Lemma detect_intent_unvalidated_errors_propagate_witness :
  let reply := JObj [(of_ascii "intent", JStr (of_ascii "chitchat"));
                     (of_ascii "topic", JStr (of_ascii "hello"))] in
  existsb (json_is_str (JStr (of_ascii "chitchat"))) intent_types = false
  /\ handle_user_query (fun _ => Ok (of_ascii "{...}")) (fun _ => Some reply)
       (fun _ _ => Ok []) (fun _ _ _ => Ok []) (fun _ => Ok []) (fun _ => Ok [])
       (fun _ _ _ => Ok []) (fun _ => []) (of_ascii "hello there") None None []
     = Ok [(of_ascii "intent", JStr (of_ascii "chitchat"));
           (of_ascii "query", JStr (of_ascii "hello there"))].
Proof.
  intros reply. split; [reflexivity|].
  destruct (detect_intent_unvalidated_errors_propagate
              (fun _ => Ok (of_ascii "{...}")) (fun _ => Some reply)
              (fun _ _ => Ok []) (fun _ _ _ => Ok []) (fun _ => Ok []) (fun _ => Ok [])
              (fun _ _ _ => Ok []) (fun _ => []) (of_ascii "hello there") None None [])
    as (_ & _ & _ & H4).
  apply (H4 reply (JStr (of_ascii "chitchat")) (JStr (of_ascii "hello")));
    reflexivity.
Defined.

(** C9 (counterexample): a query classified as [summary] with no
    transcript does not fail; it returns an ordinary response. *)
Lemma summary_without_transcript_succeeds :
  let reply := JObj [(of_ascii "intent", JStr (of_ascii "summary"));
                     (of_ascii "topic", JStr (of_ascii "the video"))] in
  handle_user_query (fun _ => Ok (of_ascii "{...}")) (fun _ => Some reply)
    (fun _ _ => Ok []) (fun _ _ _ => Ok []) (fun _ => Ok (of_ascii "a summary"))
    (fun _ => Ok []) (fun _ _ _ => Ok []) (fun _ => [])
    (of_ascii "summarize") None None []
  = Ok [(of_ascii "intent", JStr (of_ascii "summary"));
        (of_ascii "query", JStr (of_ascii "summarize"));
        (of_ascii "response", JStr (of_ascii "Transcript required for summary"))].
Proof. vm_compute. reflexivity. Qed.

(** C9 (amended): with no transcript, a query classified as [summary]
    (resp. [keypoints]) raises nothing: [handle_user_query] returns the
    ordinary response whose ["response"] is ["Transcript required for
    summary"] (resp. ["Transcript required for key points"]), whatever
    the summarisation and key-point calls would return. *)
Theorem missing_transcript_plain_response
    (chat_intent : pystr -> result pystr) (json_loads : pystr -> option json)
    (rag_search : json -> nat -> result (list search_result))
    (answer_question : json -> option transcript -> list message -> result pystr)
    (generate_summary : transcript -> result pystr)
    (extract_quick_keypoints : transcript -> result (list json))
    (create_video_snippet : pystr -> Q -> Q -> result pystr)
    (str_other : json -> pystr)
    (q : pystr) (vp : option pystr) (hist : list message) (ir topic : json) :
  detect_intent chat_intent json_loads q = Ok ir ->
  getitem ir (of_ascii "topic") = Ok topic ->
  let handle := handle_user_query chat_intent json_loads rag_search answer_question
    generate_summary extract_quick_keypoints create_video_snippet str_other in
  (getitem ir (of_ascii "intent") = Ok (JStr (of_ascii "summary")) ->
   handle q None vp hist =
     Ok [(of_ascii "intent", JStr (of_ascii "summary")); (of_ascii "query", JStr q);
         (of_ascii "response", JStr (of_ascii "Transcript required for summary"))])
  /\ (getitem ir (of_ascii "intent") = Ok (JStr (of_ascii "keypoints")) ->
   handle q None vp hist =
     Ok [(of_ascii "intent", JStr (of_ascii "keypoints")); (of_ascii "query", JStr q);
         (of_ascii "response", JStr (of_ascii "Transcript required for key points"))]).
Proof.
  intros Hdet Htop handle. split; intros Hint.
  - now apply (handle_summary_no_transcript _ _ _ _ _ _ _ _ q vp hist ir topic).
  - now apply (handle_keypoints_no_transcript _ _ _ _ _ _ _ _ q vp hist ir topic).
Qed.

(** C9 witness: a summary query without transcript, through the theorem. *)
Lemma missing_transcript_plain_response_witness :
  let reply := JObj [(of_ascii "intent", JStr (of_ascii "summary"));
                     (of_ascii "topic", JStr (of_ascii "the video"))] in
  detect_intent (fun _ => Ok (of_ascii "{...}")) (fun _ => Some reply)
    (of_ascii "summarize") = Ok reply
  /\ handle_user_query (fun _ => Ok (of_ascii "{...}")) (fun _ => Some reply)
       (fun _ _ => Ok []) (fun _ _ _ => Ok []) (fun _ => Ok (of_ascii "a summary"))
       (fun _ => Ok []) (fun _ _ _ => Ok []) (fun _ => [])
       (of_ascii "summarize") None None []
     = Ok [(of_ascii "intent", JStr (of_ascii "summary"));
           (of_ascii "query", JStr (of_ascii "summarize"));
           (of_ascii "response", JStr (of_ascii "Transcript required for summary"))].
Proof.
  intros reply. split; [reflexivity|].
  apply (missing_transcript_plain_response
           (fun _ => Ok (of_ascii "{...}")) (fun _ => Some reply)
           (fun _ _ => Ok []) (fun _ _ _ => Ok []) (fun _ => Ok (of_ascii "a summary"))
           (fun _ => Ok []) (fun _ _ _ => Ok []) (fun _ => [])
           (of_ascii "summarize") None [] reply (JStr (of_ascii "the video")));
    reflexivity.
Defined.

(** ** The ChromaDB store *)

Lemma pystr_eqb_refl (s : pystr) : pystr_eqb s s = true.
Proof. induction s as [|c s IH]; simpl; [reflexivity|]. now rewrite N.eqb_refl, IH. Qed.

Lemma lookup_app_new (name : pystr) (cs : list (pystr * collection)) :
  lookup_collection name cs = None -> lookup_collection name (cs ++ [(name, [])]) = Some [].
Proof.
  unfold lookup_collection. induction cs as [|[n c] cs IH]; simpl.
  - intros _. now rewrite pystr_eqb_refl.
  - destruct (pystr_eqb n name); [discriminate|]. exact IH.
Qed.

Lemma lookup_store_collection (name : pystr) (c : collection)
    (cs : list (pystr * collection)) :
  lookup_collection name (store_collection name c cs) = Some c.
Proof.
  unfold lookup_collection. induction cs as [|[n c'] cs IH]; simpl.
  - now rewrite pystr_eqb_refl.
  - destruct (pystr_eqb n name) eqn:He; simpl; rewrite He; [reflexivity|exact IH].
Qed.

Lemma store_collection_twice (name : pystr) (a b : collection)
    (cs : list (pystr * collection)) :
  store_collection name b (store_collection name a cs) = store_collection name b cs.
Proof.
  induction cs as [|[n c'] cs IH]; simpl.
  - now rewrite pystr_eqb_refl.
  - destruct (pystr_eqb n name) eqn:He; simpl; rewrite He; [reflexivity|now rewrite IH].
Qed.

Lemma get_or_create_invalid (valid : pystr -> bool) (name : pystr) (st : rag_state) :
  valid name = false -> get_or_create_collection valid name st = Raise InvalidArgumentError.
Proof. intros Hv. unfold get_or_create_collection. now rewrite Hv. Qed.

Lemma get_or_create_ok (valid : pystr -> bool) (name : pystr) (st st1 : rag_state) :
  get_or_create_collection valid name st = Ok st1 ->
  valid name = true
  /\ (exists c, lookup_collection name (collections st1) = Some c)
  /\ current_collection_name st1 = current_collection_name st
  /\ (lookup_collection name (collections st) <> None -> st1 = st).
Proof.
  unfold get_or_create_collection. destruct (valid name); [|discriminate].
  destruct (lookup_collection name (collections st)) as [c|] eqn:Hl; intros H;
    injection H as <-.
  - split; [reflexivity|]. split; [now exists c|]. split; reflexivity.
  - split; [reflexivity|]. split; [exists []; now apply lookup_app_new|].
    split; [reflexivity|]. intros Hn. congruence.
Qed.

Lemma get_or_create_valid (valid : pystr -> bool) (name : pystr) (st : rag_state) :
  valid name = true -> exists st1, get_or_create_collection valid name st = Ok st1.
Proof.
  intros Hv. unfold get_or_create_collection. rewrite Hv.
  destruct (lookup_collection name (collections st)); eexists; reflexivity.
Qed.

Lemma get_or_create_existing (valid : pystr -> bool) (name : pystr) (st : rag_state)
    (c : collection) :
  valid name = true -> lookup_collection name (collections st) = Some c ->
  get_or_create_collection valid name st = Ok st.
Proof. intros Hv Hl. unfold get_or_create_collection. now rewrite Hv, Hl. Qed.

Lemma filter_all_false {A : Type} (f : A -> bool) (l : list A) :
  (forall x, In x l -> f x = false) -> filter f l = [].
Proof.
  induction l as [|a l IH]; intros H; simpl; [reflexivity|].
  rewrite (H a (or_introl eq_refl)). apply IH. intros x Hx. apply H. now right.
Qed.

Lemma collection_delete_all (c : collection) :
  collection_delete (map rec_id c) c = [].
Proof.
  unfold collection_delete. apply filter_all_false.
  intros r Hr. apply negb_false_iff, existsb_exists.
  exists (rec_id r). split; [now apply in_map|apply pystr_eqb_refl].
Qed.

(** [existing = collection.get(); if existing["ids"]: collection.delete(...)]
    leaves the collection empty. *)
Lemma cleared_collection (c : collection) :
  match map rec_id c with
  | [] => c
  | _ :: _ => collection_delete (map rec_id c) c
  end = [].
Proof.
  destruct (map rec_id c) eqn:Hm.
  - now apply map_eq_nil in Hm.
  - rewrite <- Hm. apply collection_delete_all.
Qed.

Lemma records_of_length (ids documents : list pystr) (embeddings : list (list Q))
    (metadatas : list (Q * Q)) :
  List.length documents = List.length ids -> List.length embeddings = List.length ids ->
  List.length metadatas = List.length ids ->
  List.length (records_of ids documents embeddings metadatas) = List.length ids.
Proof.
  intros H1 H2 H3. unfold records_of. rewrite length_map, !length_combine. lia.
Qed.

Lemma filter_fresh_empty (rs : list chroma_record) :
  filter (fun r => negb (existsb (fun r' => pystr_eqb (rec_id r') (rec_id r)) [])) rs = rs.
Proof.
  transitivity (filter (fun _ : chroma_record => true) rs).
  - apply filter_ext. intros r. reflexivity.
  - induction rs as [|r rs IH]; simpl; congruence.
Qed.

(** What a successful [add] to an empty collection holds. *)
Lemma collection_add_empty_ok (ids documents : list pystr) (embeddings : list (list Q))
    (metadatas : list (Q * Q)) (c' : collection) :
  collection_add ids documents embeddings metadatas [] = Ok c' ->
  c' = records_of ids documents embeddings metadatas
  /\ ids <> []
  /\ List.length documents = List.length ids
  /\ List.length embeddings = List.length ids
  /\ List.length metadatas = List.length ids.
Proof.
  unfold collection_add.
  destruct (List.length ids =? 0)%nat eqn:H0; [discriminate|].
  destruct (has_duplicate ids); [discriminate|].
  destruct (List.length documents =? List.length ids)%nat eqn:H1;
    destruct (List.length embeddings =? List.length ids)%nat eqn:H2;
    destruct (List.length metadatas =? List.length ids)%nat eqn:H3;
    simpl; try discriminate.
  destruct (existsb _ embeddings); [discriminate|].
  intros H. injection H as <-. rewrite filter_fresh_empty.
  apply Nat.eqb_eq in H1, H2, H3. apply Nat.eqb_neq in H0.
  repeat split; try assumption. intros ->. simpl in H0. congruence.
Qed.

Lemma chunk_ids_length (chunks : list chunk) :
  List.length (chunk_ids chunks) = List.length chunks.
Proof. unfold chunk_ids. now rewrite length_map, length_seq. Qed.

(** A successful [add] of the chunks' records to the emptied collection
    holds one record per chunk. *)
Lemma chunk_add_ok (chunks : list chunk) (embeddings : list (list Q)) (c' : collection) :
  collection_add (chunk_ids chunks) (map c_text chunks) embeddings
    (chunk_metadatas chunks) [] = Ok c' ->
  c' = chunk_records chunks embeddings /\ List.length c' = List.length chunks.
Proof.
  intros H. destruct (collection_add_empty_ok _ _ _ _ _ H) as (-> & _ & H1 & H2 & H3).
  split; [reflexivity|]. unfold chunk_records.
  rewrite records_of_length by assumption. apply chunk_ids_length.
Qed.

Section Indexing.

Variables (embeddings_create : list pystr -> result (list (list Q)))
  (md5_hexdigest : list N -> pystr) (chroma_valid_name : pystr -> bool).

Lemma index_transcript_derive_error (st : rag_state) (t : transcript)
    (video_id : option pystr) (e : py_exn) :
  derive_collection_name md5_hexdigest t video_id = Raise e ->
  index_transcript embeddings_create md5_hexdigest chroma_valid_name st t video_id
  = (st, Raise e).
Proof. intros H. unfold index_transcript. now rewrite H. Qed.

Lemma index_transcript_invalid (st : rag_state) (t : transcript)
    (video_id : option pystr) (name : pystr) :
  derive_collection_name md5_hexdigest t video_id = Ok name ->
  chroma_valid_name name = false ->
  index_transcript embeddings_create md5_hexdigest chroma_valid_name st t video_id
  = (st, Raise InvalidArgumentError).
Proof. intros H Hv. unfold index_transcript. rewrite H. now rewrite get_or_create_invalid. Qed.

(** Once the collection is opened it is emptied; then the chunks are
    embedded and added, and either step may raise. *)
Lemma index_transcript_valid (st : rag_state) (t : transcript)
    (video_id : option pystr) (name : pystr) (st1 : rag_state) :
  derive_collection_name md5_hexdigest t video_id = Ok name ->
  get_or_create_collection chroma_valid_name name st = Ok st1 ->
  index_transcript embeddings_create md5_hexdigest chroma_valid_name st t video_id =
    match generate_embeddings_batched embeddings_create
            (map c_text (chunk_transcript t 100)) with
    | Raise e => (mkRagState (store_collection name [] (collections st1))
                             (current_collection_name st), Raise e)
    | Ok embs =>
        match collection_add (chunk_ids (chunk_transcript t 100))
                (map c_text (chunk_transcript t 100)) embs
                (chunk_metadatas (chunk_transcript t 100)) [] with
        | Raise e => (mkRagState (store_collection name [] (collections st1))
                                 (current_collection_name st), Raise e)
        | Ok c' => (mkRagState (store_collection name c' (collections st1)) (Some name),
                    Ok name)
        end
    end.
Proof.
  intros Hd Hg. destruct (get_or_create_ok _ _ _ _ Hg) as (_ & [c Hc] & Hcur & _).
  unfold index_transcript. rewrite Hd, Hg. cbv zeta. rewrite Hc, cleared_collection, Hcur.
  destruct (generate_embeddings_batched embeddings_create
              (map c_text (chunk_transcript t 100))) as [embs|e]; [|reflexivity].
  destruct (collection_add _ _ embs _ []) as [c'|e]; [|reflexivity].
  simpl. now rewrite store_collection_twice.
Qed.

(** A successful [index_transcript], step by step. *)
Lemma index_transcript_ok_inv (st : rag_state) (t : transcript)
    (video_id : option pystr) (name : pystr) (st' : rag_state) :
  index_transcript embeddings_create md5_hexdigest chroma_valid_name st t video_id
  = (st', Ok name) ->
  derive_collection_name md5_hexdigest t video_id = Ok name
  /\ chroma_valid_name name = true
  /\ exists st1 embs c',
       get_or_create_collection chroma_valid_name name st = Ok st1
       /\ generate_embeddings_batched embeddings_create
            (map c_text (chunk_transcript t 100)) = Ok embs
       /\ collection_add (chunk_ids (chunk_transcript t 100))
            (map c_text (chunk_transcript t 100)) embs
            (chunk_metadatas (chunk_transcript t 100)) [] = Ok c'
       /\ st' = mkRagState (store_collection name c' (collections st1)) (Some name).
Proof.
  intros H.
  destruct (derive_collection_name md5_hexdigest t video_id) as [n|e] eqn:Hd;
    [|rewrite (index_transcript_derive_error _ _ _ _ Hd) in H; discriminate].
  destruct (chroma_valid_name n) eqn:Hv;
    [|rewrite (index_transcript_invalid _ _ _ _ Hd Hv) in H; discriminate].
  destruct (get_or_create_valid chroma_valid_name n st Hv) as [st1 Hg].
  rewrite (index_transcript_valid _ _ _ _ _ Hd Hg) in H.
  destruct (generate_embeddings_batched embeddings_create
              (map c_text (chunk_transcript t 100))) as [embs|e] eqn:He; [|discriminate].
  destruct (collection_add _ _ embs _ []) as [c'|e] eqn:Ha; [|discriminate].
  injection H as <- <-. split; [reflexivity|]. split; [exact Hv|].
  exists st1, embs, c'. repeat split; assumption.
Qed.

(** A failed [index_transcript] whose name ChromaDB accepted leaves that
    collection emptied. *)
Lemma index_transcript_raise_inv (st : rag_state) (t : transcript)
    (video_id : option pystr) (name : pystr) (st' : rag_state) (e : py_exn) :
  derive_collection_name md5_hexdigest t video_id = Ok name ->
  chroma_valid_name name = true ->
  index_transcript embeddings_create md5_hexdigest chroma_valid_name st t video_id
  = (st', Raise e) ->
  exists st1, get_or_create_collection chroma_valid_name name st = Ok st1
    /\ st' = mkRagState (store_collection name [] (collections st1))
                        (current_collection_name st).
Proof.
  intros Hd Hv H. destruct (get_or_create_valid chroma_valid_name name st Hv) as [st1 Hg].
  exists st1. split; [exact Hg|].
  rewrite (index_transcript_valid _ _ _ _ _ Hd Hg) in H.
  destruct (generate_embeddings_batched embeddings_create
              (map c_text (chunk_transcript t 100))) as [embs|e'];
    [|injection H as <- _; reflexivity].
  destruct (collection_add _ _ embs _ []) as [c'|e']; [discriminate|].
  injection H as <- _. reflexivity.
Qed.

End Indexing.

(** ** Claim C3 *)

(** C3: indexing clears the collection before re-populating it.  After a
    successful [index_transcript] the collection of the derived name holds
    exactly one record per chunk of the transcript, whatever it held
    before; indexing the same transcript again under the same id succeeds
    under the same name and leaves exactly the same records, so the member
    count equals the chunk count once, never twice. *)
Theorem index_transcript_idempotent
    (embeddings_create : list pystr -> result (list (list Q)))
    (md5_hexdigest : list N -> pystr) (chroma_valid_name : pystr -> bool)
    (st : rag_state) (t : transcript) (video_id : option pystr) (name : pystr)
    (st1 : rag_state) :
  index_transcript embeddings_create md5_hexdigest chroma_valid_name st t video_id
  = (st1, Ok name) ->
  exists c st2,
    lookup_collection name (collections st1) = Some c
    /\ List.length c = List.length (chunk_transcript t 100)
    /\ index_transcript embeddings_create md5_hexdigest chroma_valid_name st1 t video_id
       = (st2, Ok name)
    /\ lookup_collection name (collections st2) = Some c.
Proof.
  intros H1.
  destruct (index_transcript_ok_inv _ _ _ _ _ _ _ _ H1)
    as (Hd & Hv & sa & embs & c' & Hg & He & Ha & ->).
  assert (Hl1 : lookup_collection name
                  (collections (mkRagState (store_collection name c' (collections sa))
                                           (Some name))) = Some c')
    by apply lookup_store_collection.
  pose proof (get_or_create_existing _ _ _ _ Hv Hl1) as Hg2.
  rewrite (index_transcript_valid _ _ _ _ _ _ _ _ Hd Hg2), He, Ha.
  exists c'. eexists. split; [exact Hl1|]. split; [now apply (chunk_add_ok _ embs)|].
  split; [reflexivity|]. apply lookup_store_collection.
Qed.

(** C3 witness: a two-segment transcript indexed twice under ["abc"] in a
    store whose collection ["transcript_abc"] already held a stale record. *)
Lemma index_transcript_idempotent_witness :
  let t := mkTranscript [mkSegment 0 4 (of_ascii "first part");
                         mkSegment 4 9 (of_ascii "second part")]
                        (of_ascii "first part second part") 9 in
  let st := mkRagState [(of_ascii "transcript_abc",
                         [mkRecord (of_ascii "chunk_7") (of_ascii "old") [1] 0 1])] None in
  let ec := fun b : list pystr => Ok (map (fun _ => [1]) b) in
  exists name st1, index_transcript ec (fun _ => []) (fun _ => true) st t
                     (Some (of_ascii "abc")) = (st1, Ok name)
  /\ exists c st2,
    lookup_collection name (collections st1) = Some c
    /\ List.length c = List.length (chunk_transcript t 100)
    /\ index_transcript ec (fun _ => []) (fun _ => true) st1 t (Some (of_ascii "abc"))
       = (st2, Ok name)
    /\ lookup_collection name (collections st2) = Some c.
Proof.
  intros t st ec. do 2 eexists. split; [vm_compute; reflexivity|].
  apply (index_transcript_idempotent ec (fun _ => []) (fun _ => true) st t
           (Some (of_ascii "abc"))).
  vm_compute. reflexivity.
Defined.

(** ** Claim C10 *)

(** C10: without an explicit video id ([None] or empty), the derived
    collection name depends only on the first 1000 characters of
    [full_text]: two transcripts agreeing there derive the same name, and
    indexing the second after the first always replaces the first's
    collection: when that call succeeds the collection holds the second's
    chunks, and when it raises it is left empty. *)
Theorem collection_name_depends_on_prefix
    (embeddings_create : list pystr -> result (list (list Q)))
    (md5_hexdigest : list N -> pystr) (chroma_valid_name : pystr -> bool)
    (st : rag_state) (t1 t2 : transcript) (video_id : option pystr) (name : pystr)
    (st1 : rag_state) :
  (video_id = None \/ video_id = Some []) ->
  firstn 1000 (t_full_text t1) = firstn 1000 (t_full_text t2) ->
  derive_collection_name md5_hexdigest t1 video_id
    = derive_collection_name md5_hexdigest t2 video_id
  /\ (index_transcript embeddings_create md5_hexdigest chroma_valid_name st t1 video_id
      = (st1, Ok name) ->
      forall st2 r,
        index_transcript embeddings_create md5_hexdigest chroma_valid_name st1 t2 video_id
        = (st2, r) ->
        (forall n, r = Ok n ->
           n = name
           /\ exists embs,
                generate_embeddings_batched embeddings_create
                  (map c_text (chunk_transcript t2 100)) = Ok embs
                /\ lookup_collection name (collections st2)
                   = Some (chunk_records (chunk_transcript t2 100) embs))
        /\ (forall e, r = Raise e -> lookup_collection name (collections st2) = Some [])).
Proof.
  intros Hvid Hpre.
  assert (Hd : derive_collection_name md5_hexdigest t1 video_id
               = derive_collection_name md5_hexdigest t2 video_id).
  { unfold derive_collection_name. now destruct Hvid as [-> | ->]; rewrite Hpre. }
  split; [exact Hd|]. intros H1 st2 r H2.
  destruct (index_transcript_ok_inv _ _ _ _ _ _ _ _ H1) as (Hd1 & Hv & _).
  rewrite Hd in Hd1.
  destruct (get_or_create_valid chroma_valid_name name st1 Hv) as [sb Hg].
  rewrite (index_transcript_valid _ _ _ _ _ _ _ _ Hd1 Hg) in H2.
  destruct (generate_embeddings_batched embeddings_create
              (map c_text (chunk_transcript t2 100))) as [embs|e] eqn:He.
  - destruct (collection_add _ _ embs _ []) as [c'|e] eqn:Ha.
    + injection H2 as <- <-. split; [|discriminate].
      intros n Hn. injection Hn as <-. split; [reflexivity|].
      exists embs. split; [reflexivity|].
      destruct (chunk_add_ok _ _ _ Ha) as [-> _]. apply lookup_store_collection.
    + injection H2 as <- <-. split; [discriminate|]. intros _ _.
      apply lookup_store_collection.
  - injection H2 as <- <-. split; [discriminate|]. intros _ _.
    apply lookup_store_collection.
Qed.

(** C10 witness: two transcripts of 1001 characters differing only in the
    last one. *)
Lemma collection_name_depends_on_prefix_witness :
  let t1 := mkTranscript [mkSegment 0 1 (of_ascii "a")] (repeat 97%N 1000 ++ [98%N]) 1 in
  let t2 := mkTranscript [mkSegment 0 2 (of_ascii "b")] (repeat 97%N 1000 ++ [99%N]) 2 in
  let md5 := fun (_ : list N) => of_ascii "0123456789abcdef0123456789abcdef" in
  t_full_text t1 <> t_full_text t2
  /\ derive_collection_name md5 t1 None = derive_collection_name md5 t2 None.
Proof.
  intros t1 t2 md5. split.
  - vm_compute. discriminate.
  - apply (collection_name_depends_on_prefix (fun _ => Ok []) md5 (fun _ => true)
             (mkRagState [] None) t1 t2 None [] (mkRagState [] None)).
    + now left.
    + vm_compute. reflexivity.
Defined.

(** ** [str.replace] *)






(** ** Claim C5 *)




(** ** Claim C1 *)

(** C1 (counterexample): [search] reports [1 - distance] unclamped; a
    cosine distance of [3/2] (vectors pointing away from each other) gives
    the relevance [-1/2]. *)
Lemma search_relevance_can_be_negative :
  let rec0 := mkRecord (of_ascii "chunk_0") (of_ascii "unrelated talk") [0; 1] 0 5 in
  let st := mkRagState [(of_ascii "transcript_a", [rec0])] (Some (of_ascii "transcript_a")) in
  exists rs,
    search (fun b => Ok (map (fun _ => [1; 0]) b))
      (fun c _ _ => Ok (map (fun r => (r, 3 # 2)) c))
      st (of_ascii "cooking") 5 None = Ok rs
    /\ Exists (fun r => sr_relevance r < 0) rs.
Proof.
  intros rec0 st. eexists. split; [vm_compute; reflexivity|].
  constructor. vm_compute. reflexivity.
Qed.

(** C7 witness: a snippet query with one search hit at [10, 200]. *)
Lemma snippet_paths_same_rule_different_spans_witness :
  let ir := JObj [(of_ascii "intent", JStr (of_ascii "snippet"));
                  (of_ascii "topic", JStr (of_ascii "x"));
                  (of_ascii "parameters", JObj [(of_ascii "max_duration", JNum 60)])] in
  let r0 := mkResult (of_ascii "a") 10 200 (9 # 10) in
  let w := resolve_window 2 60 (to_timestamp r0) [] in
  (forall max_duration rs,
     snippet_query_windows max_duration rs
       = map (fun r => resolve_window 2 max_duration (to_timestamp r) []) rs)
  /\ (exists resp,
        handle_user_query (fun _ => Ok (of_ascii "{...}")) (fun _ => Some ir)
          (fun _ _ => Ok [r0]) (fun _ _ _ => Ok []) (fun _ => Ok []) (fun _ => Ok [])
          (fun _ _ _ => Ok []) (fun _ => []) (of_ascii "clip x") None None [] = Ok resp
        /\ getitem (JObj resp) (of_ascii "timestamps")
           = Ok (JObj [(of_ascii "start", JNum (fst w)); (of_ascii "end", JNum (snd w))]))
  /\ ([] = @nil search_result -> snippet_query_windows 60 [r0] = [w]).
Proof.
  intros ir r0 w.
  apply (snippet_paths_same_rule_different_spans
           (fun _ => Ok (of_ascii "{...}")) (fun _ => Some ir)
           (fun _ _ => Ok [r0]) (fun _ _ _ => Ok []) (fun _ => Ok []) (fun _ => Ok [])
           (fun _ _ _ => Ok []) (fun _ => []) (of_ascii "clip x") None []
           ir (JStr (of_ascii "x")) (JObj [(of_ascii "max_duration", JNum 60)])
           60 r0 []); reflexivity.
Defined.

(* ================================================================== *)
(** * Further properties of the code *)

(** ** Floors and the fields of a time *)

Lemma Qfloor_unique (x : Q) (z : Z) :
  inject_Z z <= x -> x < inject_Z (z + 1) -> Qfloor x = z.
Proof.
  intros H1 H2.
  assert (A : (z <= Qfloor x)%Z).
  { rewrite <- (Qfloor_Z z) at 1. now apply Qfloor_resp_le. }
  assert (B : (Qfloor x < z + 1)%Z).
  { rewrite Zlt_Qlt. eapply Qle_lt_trans; [apply Qfloor_le|exact H2]. }
  lia.
Qed.

Lemma Qfloor_add_Z (x : Q) (z : Z) : Qfloor (x + inject_Z z) = (Qfloor x + z)%Z.
Proof.
  apply Qfloor_unique.
  - rewrite inject_Z_plus. pose proof (Qfloor_le x). lra.
  - pose proof (Qlt_floor x). rewrite !inject_Z_plus in *. lra.
Qed.

Lemma Qfloor_sub_Z (x : Q) (z : Z) : Qfloor (x - inject_Z z) = (Qfloor x - z)%Z.
Proof.
  unfold Qminus. rewrite <- inject_Z_opp, Qfloor_add_Z. lia.
Qed.

Lemma Qfloor_div_Z (x : Q) (k : Z) :
  (0 < k)%Z -> Qfloor (x / inject_Z k) = (Qfloor x / k)%Z.
Proof.
  intros Hk. assert (Hq : 0 < inject_Z k) by (change 0 with (inject_Z 0); rewrite <- Zlt_Qlt; exact Hk).
  set (F := Qfloor x). apply Qfloor_unique.
  - apply Qle_shift_div_l; [exact Hq|]. rewrite <- inject_Z_mult.
    eapply Qle_trans; [|apply Qfloor_le]. rewrite <- Zle_Qle.
    fold F. rewrite Z.mul_comm. apply Z.mul_div_le. exact Hk.
  - apply Qlt_shift_div_r; [exact Hq|]. rewrite <- inject_Z_mult.
    eapply Qlt_le_trans; [apply Qlt_floor|]. rewrite <- Zle_Qle. fold F.
    pose proof (Z.div_mod F k ltac:(lia)). pose proof (Z.mod_pos_bound F k Hk). nia.
Qed.

(** The three fields every time formatter of the code computes, in terms
    of [F = floor(seconds)]: [seconds // 3600], [(seconds % 3600) // 60]
    and [seconds % 60]. *)
Lemma time_fields (s : Q) :
  Qfloor (s / 3600) = (Qfloor s / 3600)%Z
  /\ Qfloor ((s - 3600 * inject_Z (Qfloor (s / 3600))) / 60) = ((Qfloor s mod 3600) / 60)%Z
  /\ Qfloor (s - 60 * inject_Z (Qfloor (s / 60))) = (Qfloor s mod 60)%Z.
Proof.
  assert (Hh : forall k : Z, (0 < k)%Z -> Qfloor (s / inject_Z k) = (Qfloor s / k)%Z)
    by (intros; now apply Qfloor_div_Z).
  change (3600 : Q) with (inject_Z 3600). change (60 : Q) with (inject_Z 60).
  rewrite !Hh by lia. split; [reflexivity|]. split.
  - rewrite <- inject_Z_mult, Qfloor_div_Z, Qfloor_sub_Z by lia. f_equal.
    rewrite Z.mod_eq by lia. reflexivity.
  - rewrite <- inject_Z_mult, Qfloor_sub_Z. rewrite Z.mod_eq by lia. reflexivity.
Qed.

Lemma pystr_eqb_true (a b : pystr) : pystr_eqb a b = true -> a = b.
Proof.
  revert b. induction a as [|x a IH]; intros [|y b] H; simpl in H; try discriminate.
  - reflexivity.
  - apply andb_true_iff in H as [H1 H2]. apply N.eqb_eq in H1. subst. f_equal. now apply IH.
Qed.

Lemma fmt_02d_pair_table :
  forallb (fun k => pystr_eqb (fmt_02d (Z.of_nat k)) (digit_pair (Z.of_nat k)))
    (seq 0 100) = true.
Proof. vm_compute. reflexivity. Qed.

Lemma fmt_02d_pair (z : Z) : (0 <= z < 100)%Z -> fmt_02d z = digit_pair z.
Proof.
  intros Hz. pose proof fmt_02d_pair_table as T. rewrite forallb_forall in T.
  specialize (T (Z.to_nat z)). rewrite Z2Nat.id in T by lia.
  apply pystr_eqb_true, T, in_seq. lia.
Qed.

Lemma Qfloor_nonneg (s : Q) : 0 <= s -> (0 <= Qfloor s)%Z.
Proof. intros H. change 0%Z with (Qfloor 0). now apply Qfloor_resp_le. Qed.

Lemma Qfloor_lt_Z (s : Q) (z : Z) : s < inject_Z z -> (Qfloor s < z)%Z.
Proof.
  intros H. rewrite Zlt_Qlt. eapply Qle_lt_trans; [apply Qfloor_le|exact H].
Qed.

Lemma Qfloor_ge_Z (s : Q) (z : Z) : inject_Z z <= s -> (z <= Qfloor s)%Z.
Proof. intros H. rewrite <- (Qfloor_Z z). now apply Qfloor_resp_le. Qed.

(** Each formatter depends on [seconds] only through [floor(seconds)]. *)
Lemma format_time_floor (s : Q) :
  let F := Qfloor s in
  format_time s = fmt_02d (F / 3600) ++ of_ascii ":" ++ fmt_02d ((F mod 3600) / 60)
                  ++ of_ascii ":" ++ fmt_02d (F mod 60).
Proof.
  destruct (time_fields s) as (Hh & Hm & Hs). unfold format_time. cbv zeta.
  rewrite Hm, Hs, Hh. reflexivity.
Qed.

Lemma format_timestamp_floor (s : Q) :
  let F := Qfloor s in
  format_timestamp s = fmt_02d (F / 3600) ++ of_ascii ":" ++ fmt_02d ((F mod 3600) / 60)
                       ++ of_ascii ":" ++ fmt_02d (F mod 60).
Proof.
  destruct (time_fields s) as (Hh & Hm & Hs). unfold format_timestamp. cbv zeta.
  rewrite Hm, Hs, Hh. reflexivity.
Qed.

Lemma rag_format_time_floor (s : Q) :
  let F := Qfloor s in
  rag_format_time s =
    if (0 <? F / 3600)%Z
    then fmt_02d (F / 3600) ++ of_ascii ":" ++ fmt_02d ((F mod 3600) / 60)
         ++ of_ascii ":" ++ fmt_02d (F mod 60)
    else fmt_02d ((F mod 3600) / 60) ++ of_ascii ":" ++ fmt_02d (F mod 60).
Proof.
  destruct (time_fields s) as (Hh & Hm & Hs). unfold rag_format_time. cbv zeta.
  rewrite Hm, Hs, Hh. reflexivity.
Qed.

Lemma format_duration_floor (s : Q) :
  let F := Qfloor s in
  format_duration s =
    if (0 <? F / 3600)%Z
    then str_of_Z (F / 3600) ++ of_ascii "h " ++ str_of_Z ((F mod 3600) / 60)
         ++ of_ascii "m " ++ str_of_Z (F mod 60) ++ of_ascii "s"
    else str_of_Z ((F mod 3600) / 60) ++ of_ascii "m " ++ str_of_Z (F mod 60)
         ++ of_ascii "s".
Proof.
  destruct (time_fields s) as (Hh & Hm & Hs). unfold format_duration. cbv zeta.
  rewrite Hm, Hs, Hh. reflexivity.
Qed.

(** ** [HH:MM:SS] of query_handler and video_transcriber *)

(** For [0 <= s < 360000] (under 100 hours), [_format_time] of
    query_handler.py and [format_timestamp] of video_transcriber.py both
    print [HH:MM:SS] with two digits per field, where the fields are the
    hours, minutes and seconds of [floor(s)]. *)
Theorem format_time_hh_mm_ss (s : Q) :
  0 <= s -> s < 360000 ->
  exists h m sec : Z,
    (3600 * h + 60 * m + sec = Qfloor s)%Z
    /\ (0 <= h < 100)%Z /\ (0 <= m < 60)%Z /\ (0 <= sec < 60)%Z
    /\ format_time s = digit_pair h ++ of_ascii ":" ++ digit_pair m ++ of_ascii ":"
                       ++ digit_pair sec
    /\ format_timestamp s = digit_pair h ++ of_ascii ":" ++ digit_pair m ++ of_ascii ":"
                            ++ digit_pair sec.
Proof.
  intros H0 H1. pose proof (Qfloor_nonneg s H0) as A.
  pose proof (Qfloor_lt_Z s 360000 H1) as B.
  set (F := Qfloor s) in *.
  exists (F / 3600)%Z, ((F mod 3600) / 60)%Z, (F mod 60)%Z.
  assert (E : (3600 * (F / 3600) + 60 * ((F mod 3600) / 60) + F mod 60 = F)%Z
              /\ (0 <= F / 3600 < 100)%Z /\ (0 <= (F mod 3600) / 60 < 60)%Z
              /\ (0 <= F mod 60 < 60)%Z)
    by (Z.to_euclidean_division_equations; lia).
  destruct E as (E1 & E2 & E3 & E4).
  repeat split; try lia.
  - rewrite format_time_floor. fold F. rewrite !fmt_02d_pair by lia. reflexivity.
  - rewrite format_timestamp_floor. fold F. rewrite !fmt_02d_pair by lia. reflexivity.
Qed.

Lemma format_time_hh_mm_ss_witness :
  0 <= 3725 /\ 3725 < 360000 /\
  exists h m sec : Z,
    (3600 * h + 60 * m + sec = Qfloor 3725)%Z
    /\ (0 <= h < 100)%Z /\ (0 <= m < 60)%Z /\ (0 <= sec < 60)%Z
    /\ format_time 3725 = digit_pair h ++ of_ascii ":" ++ digit_pair m ++ of_ascii ":"
                          ++ digit_pair sec
    /\ format_timestamp 3725 = digit_pair h ++ of_ascii ":" ++ digit_pair m
                               ++ of_ascii ":" ++ digit_pair sec.
Proof.
  split; [vm_compute; discriminate|]. split; [vm_compute; reflexivity|].
  apply format_time_hh_mm_ss; [vm_compute; discriminate|vm_compute; reflexivity].
Defined.

(** ** [MM:SS] of rag_engine *)

(** [_format_time] of rag_engine.py prints [MM:SS] (two digits each, the
    minutes and seconds of [floor(s)]) for [0 <= s < 3600], the same
    [HH:MM:SS] as query_handler's [_format_time] from one hour on, and for
    [-3600 <= s < 0] the same text as for [s + 3600]: a negative time is
    shown as a time in the hour before it wraps. *)
Theorem rag_format_time_shapes (s : Q) :
  (0 <= s -> s < 3600 ->
     exists m sec : Z,
       (60 * m + sec = Qfloor s)%Z /\ (0 <= m < 60)%Z /\ (0 <= sec < 60)%Z
       /\ rag_format_time s = digit_pair m ++ of_ascii ":" ++ digit_pair sec)
  /\ (3600 <= s -> rag_format_time s = format_time s)
  /\ (-3600 <= s -> s < 0 -> rag_format_time s = rag_format_time (s + 3600)).
Proof.
  split; [|split].
  - intros H0 H1. pose proof (Qfloor_nonneg s H0) as A.
    pose proof (Qfloor_lt_Z s 3600 H1) as B.
    rewrite rag_format_time_floor. set (F := Qfloor s) in *.
    exists ((F mod 3600) / 60)%Z, (F mod 60)%Z.
    assert (C : (F / 3600 = 0)%Z) by (apply Z.div_small; lia).
    rewrite C. cbn [Z.ltb Z.compare].
    assert (E : (60 * ((F mod 3600) / 60) + F mod 60 = F)%Z
                /\ (0 <= (F mod 3600) / 60 < 60)%Z /\ (0 <= F mod 60 < 60)%Z)
      by (Z.to_euclidean_division_equations; lia).
    destruct E as (E1 & E2 & E3). repeat split; try lia.
    rewrite !fmt_02d_pair by lia. reflexivity.
  - intros H. pose proof (Qfloor_ge_Z s 3600 H) as A.
    rewrite rag_format_time_floor, format_time_floor. set (F := Qfloor s) in *.
    replace ((0 <? F / 3600)%Z) with true; [reflexivity|].
    symmetry. apply Z.ltb_lt. Z.to_euclidean_division_equations. lia.
  - intros H0 H1. pose proof (Qfloor_ge_Z s (-3600) H0) as A.
    pose proof (Qfloor_lt_Z s 0 H1) as B.
    rewrite !rag_format_time_floor.
    change (3600 : Q) with (inject_Z 3600). rewrite Qfloor_add_Z.
    set (F := Qfloor s) in *.
    replace ((0 <? F / 3600)%Z) with false
      by (symmetry; apply Z.ltb_ge; Z.to_euclidean_division_equations; lia).
    replace ((0 <? (F + 3600) / 3600)%Z) with false
      by (symmetry; apply Z.ltb_ge; Z.to_euclidean_division_equations; lia).
    replace ((F + 3600) mod 3600)%Z with (F mod 3600)%Z
      by (Z.to_euclidean_division_equations; lia).
    replace ((F + 3600) mod 60)%Z with (F mod 60)%Z
      by (Z.to_euclidean_division_equations; lia).
    reflexivity.
Qed.

(** ** [_format_duration] *)

(** For [s >= 0], [_format_duration] prints ["{h}h {m}m {s}s"] with the
    hours, minutes and seconds of [floor(s)] (no zero padding), and drops
    the hours part exactly when there are none. *)
Theorem format_duration_fields (s : Q) :
  0 <= s ->
  exists h m sec : Z,
    (3600 * h + 60 * m + sec = Qfloor s)%Z
    /\ (0 <= h)%Z /\ (0 <= m < 60)%Z /\ (0 <= sec < 60)%Z
    /\ format_duration s =
         (if (h =? 0)%Z then [] else str_of_Z h ++ of_ascii "h ")
         ++ str_of_Z m ++ of_ascii "m " ++ str_of_Z sec ++ of_ascii "s".
Proof.
  intros H0. pose proof (Qfloor_nonneg s H0) as A.
  rewrite format_duration_floor. set (F := Qfloor s) in *.
  exists (F / 3600)%Z, ((F mod 3600) / 60)%Z, (F mod 60)%Z.
  assert (E : (3600 * (F / 3600) + 60 * ((F mod 3600) / 60) + F mod 60 = F)%Z
              /\ (0 <= F / 3600)%Z /\ (0 <= (F mod 3600) / 60 < 60)%Z
              /\ (0 <= F mod 60 < 60)%Z)
    by (Z.to_euclidean_division_equations; lia).
  destruct E as (E1 & E2 & E3 & E4). repeat split; try lia.
  destruct (Z.eqb_spec (F / 3600) 0) as [Z0|Z0].
  - rewrite Z0. reflexivity.
  - replace ((0 <? F / 3600)%Z) with true by (symmetry; apply Z.ltb_lt; lia).
    simpl. now rewrite <- !app_assoc.
Qed.

Lemma format_duration_fields_witness :
  0 <= 3725 /\
  exists h m sec : Z,
    (3600 * h + 60 * m + sec = Qfloor 3725)%Z
    /\ (0 <= h)%Z /\ (0 <= m < 60)%Z /\ (0 <= sec < 60)%Z
    /\ format_duration 3725 =
         (if (h =? 0)%Z then [] else str_of_Z h ++ of_ascii "h ")
         ++ str_of_Z m ++ of_ascii "m " ++ str_of_Z sec ++ of_ascii "s".
Proof.
  split; [vm_compute; discriminate|].
  apply format_duration_fields. vm_compute. discriminate.
Defined.

(** ** The collection store *)

Lemma pystr_eqb_false (a b : pystr) : a <> b -> pystr_eqb a b = false.
Proof.
  intros H. destruct (pystr_eqb a b) eqn:E; [|reflexivity].
  exfalso. apply H. now apply pystr_eqb_true.
Qed.

Lemma pystr_eqb_sym (a b : pystr) : pystr_eqb a b = pystr_eqb b a.
Proof.
  destruct (pystr_eqb a b) eqn:E1, (pystr_eqb b a) eqn:E2; try reflexivity.
  - apply pystr_eqb_true in E1. subst. now rewrite pystr_eqb_refl in E2.
  - apply pystr_eqb_true in E2. subst. now rewrite pystr_eqb_refl in E1.
Qed.

Lemma lookup_collection_cons (x n : pystr) (c : collection)
    (cs : list (pystr * collection)) :
  lookup_collection x ((n, c) :: cs) =
    if pystr_eqb n x then Some c else lookup_collection x cs.
Proof. unfold lookup_collection. simpl. now destruct (pystr_eqb n x). Qed.

Lemma lookup_collection_in (x : pystr) (cs : list (pystr * collection)) :
  lookup_collection x cs <> None <-> In x (map fst cs).
Proof.
  induction cs as [|[n c] cs IH].
  - simpl. unfold lookup_collection. simpl. tauto.
  - rewrite lookup_collection_cons. simpl.
    destruct (pystr_eqb n x) eqn:E.
    + apply pystr_eqb_true in E. subst. split; [tauto|discriminate].
    + rewrite IH. split; [tauto|]. intros [H|H]; [|exact H].
      subst. now rewrite pystr_eqb_refl in E.
Qed.

Lemma lookup_filter_other (x name : pystr) (cs : list (pystr * collection)) :
  x <> name ->
  lookup_collection x (filter (fun nc => negb (pystr_eqb (fst nc) name)) cs)
  = lookup_collection x cs.
Proof.
  intros Hx. induction cs as [|[n c] cs IH]; [reflexivity|].
  simpl. destruct (pystr_eqb n name) eqn:E; simpl.
  - apply pystr_eqb_true in E. subst. rewrite lookup_collection_cons.
    now rewrite (pystr_eqb_false name x) by congruence.
  - now rewrite !lookup_collection_cons, IH.
Qed.

Lemma lookup_filter_same (name : pystr) (cs : list (pystr * collection)) :
  lookup_collection name (filter (fun nc => negb (pystr_eqb (fst nc) name)) cs) = None.
Proof.
  induction cs as [|[n c] cs IH]; [reflexivity|].
  simpl. destruct (pystr_eqb n name) eqn:E; simpl; [exact IH|].
  now rewrite lookup_collection_cons, E.
Qed.

Lemma map_fst_filter_name (name : pystr) (cs : list (pystr * collection)) :
  map fst (filter (fun nc => negb (pystr_eqb (fst nc) name)) cs)
  = filter (fun x => negb (pystr_eqb x name)) (map fst cs).
Proof.
  induction cs as [|[n c] cs IH]; [reflexivity|].
  simpl. destruct (pystr_eqb n name); simpl; now rewrite IH.
Qed.

Lemma lookup_store_other (x name : pystr) (c : collection)
    (cs : list (pystr * collection)) :
  x <> name -> lookup_collection x (store_collection name c cs) = lookup_collection x cs.
Proof.
  intros Hx. induction cs as [|[n c'] cs IH]; simpl.
  - rewrite lookup_collection_cons. now rewrite (pystr_eqb_false name x) by congruence.
  - destruct (pystr_eqb n name) eqn:E; rewrite !lookup_collection_cons.
    + apply pystr_eqb_true in E. subst.
      now rewrite (pystr_eqb_false name x) by congruence.
    + now rewrite IH.
Qed.

Lemma store_collection_keys (name : pystr) (c : collection)
    (cs : list (pystr * collection)) :
  In name (map fst cs) -> map fst (store_collection name c cs) = map fst cs.
Proof.
  induction cs as [|[n c'] cs IH]; simpl; [tauto|]. intros H.
  destruct (pystr_eqb n name) eqn:E; simpl; [reflexivity|].
  f_equal. apply IH. destruct H as [H|H]; [|exact H].
  subst. now rewrite pystr_eqb_refl in E.
Qed.

Lemma lookup_app_other (x n : pystr) (c : collection) (cs : list (pystr * collection)) :
  x <> n -> lookup_collection x (cs ++ [(n, c)]) = lookup_collection x cs.
Proof.
  intros Hx. induction cs as [|[m c'] cs IH]; simpl.
  - rewrite lookup_collection_cons. now rewrite (pystr_eqb_false n x) by congruence.
  - rewrite !lookup_collection_cons. now rewrite IH.
Qed.

Lemma get_or_create_keys (valid : pystr -> bool) (name : pystr) (st st1 : rag_state) :
  get_or_create_collection valid name st = Ok st1 ->
  map fst (collections st1) =
    if collection_exists name st then map fst (collections st)
    else map fst (collections st) ++ [name].
Proof.
  unfold get_or_create_collection, collection_exists. destruct (valid name); [|discriminate].
  destruct (lookup_collection name (collections st)); intros H; injection H as <-;
    simpl; [reflexivity|].
  now rewrite map_app.
Qed.

Lemma get_or_create_other (valid : pystr -> bool) (x name : pystr) (st st1 : rag_state) :
  get_or_create_collection valid name st = Ok st1 -> x <> name ->
  lookup_collection x (collections st1) = lookup_collection x (collections st).
Proof.
  unfold get_or_create_collection. destruct (valid name); [|discriminate].
  destruct (lookup_collection name (collections st)); intros H Hx; injection H as <-;
    simpl; [reflexivity|].
  now apply lookup_app_other.
Qed.

Lemma derive_collection_name_nonempty (md5 : list N -> pystr) (t : transcript)
    (vid : option pystr) (name : pystr) :
  derive_collection_name md5 t vid = Ok name -> name <> [].
Proof.
  unfold derive_collection_name. intros H.
  destruct (match vid with
            | Some ((_ :: _) as v) => Ok v
            | _ => data <- utf8_encode (firstn 1000 (t_full_text t)) ;;
                   Ok (of_ascii "video_" ++ firstn 12 (md5 data))
            end) as [v|e]; cbn [bind] in H; [|discriminate].
  injection H as <-. discriminate.
Qed.

(** [search] and [get_context_for_query] (rag_engine.py): with no name
    given and no (or an empty) current collection they raise [ValueError]
    before anything is embedded; with a non-empty name that is not a
    collection, [search] raises ChromaDB's not-found error, and so do both
    functions when that name is the current one. *)
Theorem search_error_cases (embeddings_create : list pystr -> result (list (list Q)))
    (chroma_query : collection -> list Q -> Z -> result (list (chroma_record * Q)))
    (st : rag_state) (query : pystr) (n_results : Z) :
  ((current_collection_name st = None \/ current_collection_name st = Some []) ->
     search embeddings_create chroma_query st query n_results None = Raise ValueError
     /\ search embeddings_create chroma_query st query n_results (Some []) = Raise ValueError
     /\ get_context_for_query embeddings_create chroma_query st query n_results = Raise ValueError)
  /\ (forall name, name <> [] -> lookup_collection name (collections st) = None ->
        search embeddings_create chroma_query st query n_results (Some name) = Raise NotFoundError
        /\ (current_collection_name st = Some name ->
              search embeddings_create chroma_query st query n_results None = Raise NotFoundError
              /\ get_context_for_query embeddings_create chroma_query st query n_results
                 = Raise NotFoundError)).
Proof.
  split.
  - intros Hc. unfold get_context_for_query, search.
    destruct Hc as [Hc|Hc]; rewrite Hc; cbn [bind]; auto.
  - intros name Hn Hl. destruct name as [|c0 name]; [congruence|].
    unfold get_context_for_query, search. split.
    + cbn [bind]. now rewrite Hl.
    + intros Hc. rewrite Hc. cbn [bind]. now rewrite Hl.
Qed.

(** [set_current_collection] (rag_engine.py): an absent name raises and
    changes nothing; an existing one becomes the current collection, the
    collections stay as they were, and a search without a name then
    searches that collection. *)
Theorem set_current_collection_spec (embeddings_create : list pystr -> result (list (list Q)))
    (chroma_query : collection -> list Q -> Z -> result (list (chroma_record * Q)))
    (st : rag_state) (name : pystr) :
  (lookup_collection name (collections st) = None ->
     set_current_collection st name = Raise NotFoundError)
  /\ (lookup_collection name (collections st) <> None ->
      exists st', set_current_collection st name = Ok st'
        /\ get_current_collection st' = Some name
        /\ list_collections st' = list_collections st
        /\ collections st' = collections st
        /\ (name <> [] -> forall query n_results,
              search embeddings_create chroma_query st' query n_results None
              = search embeddings_create chroma_query st query n_results (Some name))).
Proof.
  unfold set_current_collection. split.
  - intros H. now rewrite H.
  - intros H. destruct (lookup_collection name (collections st)) as [c|] eqn:Hl;
      [|congruence].
    eexists. split; [reflexivity|]. repeat split; try reflexivity.
    intros Hn q n. destruct name as [|c0 name]; [congruence|]. reflexivity.
Qed.

Lemma set_current_collection_spec_witness :
  lookup_collection (of_ascii "v") (collections (mkRagState [(of_ascii "v", [])] None))
    <> None
  /\ exists st', set_current_collection (mkRagState [(of_ascii "v", [])] None) (of_ascii "v")
                 = Ok st'
      /\ get_current_collection st' = Some (of_ascii "v")
      /\ list_collections st' = list_collections (mkRagState [(of_ascii "v", [])] None)
      /\ collections st' = collections (mkRagState [(of_ascii "v", [])] None)
      /\ (of_ascii "v" <> [] -> forall query n_results,
            search (fun _ => Ok []) (fun _ _ _ => Ok []) st' query n_results None
            = search (fun _ => Ok []) (fun _ _ _ => Ok []) (mkRagState [(of_ascii "v", [])] None)
                query n_results (Some (of_ascii "v"))).
Proof.
  split; [vm_compute; discriminate|].
  apply (proj2 (set_current_collection_spec (fun _ => Ok []) (fun _ _ _ => Ok [])
                  (mkRagState [(of_ascii "v", [])] None) (of_ascii "v"))).
  vm_compute. discriminate.
Defined.

(** [delete_collection] (rag_engine.py): an absent name raises and changes
    nothing; otherwise exactly that collection is gone, every other one is
    as it was, and the current collection is cleared when (and only when)
    it was the deleted one, after which a search without a name raises
    [ValueError]. *)
Theorem delete_collection_spec (embeddings_create : list pystr -> result (list (list Q)))
    (chroma_query : collection -> list Q -> Z -> result (list (chroma_record * Q)))
    (st : rag_state) (name : pystr) :
  (lookup_collection name (collections st) = None ->
     delete_collection st name = Raise NotFoundError)
  /\ (lookup_collection name (collections st) <> None ->
      exists st', delete_collection st name = Ok st'
        /\ lookup_collection name (collections st') = None
        /\ (forall x, x <> name ->
              lookup_collection x (collections st') = lookup_collection x (collections st))
        /\ list_collections st' =
             filter (fun x => negb (pystr_eqb x name)) (list_collections st)
        /\ (get_current_collection st = Some name ->
              get_current_collection st' = None
              /\ forall query n_results,
                   search embeddings_create chroma_query st' query n_results None = Raise ValueError)
        /\ (get_current_collection st <> Some name ->
              get_current_collection st' = get_current_collection st)).
Proof.
  unfold delete_collection. split.
  - intros H. now rewrite H.
  - intros H. destruct (lookup_collection name (collections st)) as [c|] eqn:Hl;
      [|congruence].
    eexists. split; [reflexivity|]. simpl. split; [apply lookup_filter_same|].
    split; [intros x Hx; now apply lookup_filter_other|]. split.
    + unfold list_collections. simpl. apply map_fst_filter_name.
    + unfold get_current_collection. split.
      * intros Hc. rewrite Hc, pystr_eqb_refl. split; [reflexivity|].
        intros q n. reflexivity.
      * intros Hc. destruct (current_collection_name st) as [cur|]; [|reflexivity].
        rewrite pystr_eqb_false by congruence. reflexivity.
Qed.

Lemma delete_collection_spec_witness :
  lookup_collection (of_ascii "v") (collections (mkRagState [(of_ascii "v", [])] None))
    <> None
  /\ exists st', delete_collection (mkRagState [(of_ascii "v", [])] None) (of_ascii "v")
                 = Ok st'
      /\ lookup_collection (of_ascii "v") (collections st') = None
      /\ (forall x, x <> of_ascii "v" ->
            lookup_collection x (collections st')
            = lookup_collection x (collections (mkRagState [(of_ascii "v", [])] None)))
      /\ list_collections st' =
           filter (fun x => negb (pystr_eqb x (of_ascii "v")))
             (list_collections (mkRagState [(of_ascii "v", [])] None))
      /\ (get_current_collection (mkRagState [(of_ascii "v", [])] None) = Some (of_ascii "v") ->
            get_current_collection st' = None
            /\ forall query n_results,
                 search (fun _ => Ok []) (fun _ _ _ => Ok []) st' query n_results None
                 = Raise ValueError)
      /\ (get_current_collection (mkRagState [(of_ascii "v", [])] None) <> Some (of_ascii "v") ->
            get_current_collection st'
            = get_current_collection (mkRagState [(of_ascii "v", [])] None)).
Proof.
  split; [vm_compute; discriminate|].
  apply (proj2 (delete_collection_spec (fun _ => Ok []) (fun _ _ _ => Ok [])
                  (mkRagState [(of_ascii "v", [])] None) (of_ascii "v"))).
  vm_compute. discriminate.
Defined.

(** [index_transcript] (rag_engine.py), when it succeeds, touches only the
    collection it names: every other collection is as it was, the names
    listed afterwards are the old ones and that name, their number grows by
    one exactly when the name is new, and names that were distinct stay
    distinct. *)
Theorem index_transcript_keeps_others
    (embeddings_create : list pystr -> result (list (list Q)))
    (md5_hexdigest : list N -> pystr) (chroma_valid_name : pystr -> bool)
    (st : rag_state) (t : transcript) (video_id : option pystr) (name : pystr)
    (st' : rag_state) :
  index_transcript embeddings_create md5_hexdigest chroma_valid_name st t video_id
  = (st', Ok name) ->
  (forall x, x <> name ->
     lookup_collection x (collections st') = lookup_collection x (collections st))
  /\ (forall x, In x (list_collections st') <-> x = name \/ In x (list_collections st))
  /\ List.length (list_collections st')
     = (List.length (list_collections st) + if collection_exists name st then 0 else 1)%nat
  /\ (NoDup (list_collections st) -> NoDup (list_collections st')).
Proof.
  intros H.
  destruct (index_transcript_ok_inv _ _ _ _ _ _ _ _ H)
    as (_ & _ & st1 & embs & c' & Hg & _ & _ & ->).
  destruct (get_or_create_ok _ _ _ _ Hg) as (_ & [c Hc] & _ & _).
  assert (Hk : list_collections
                 (mkRagState (store_collection name c' (collections st1)) (Some name)) =
               (if collection_exists name st then list_collections st
                else list_collections st ++ [name])).
  { unfold list_collections. simpl. rewrite store_collection_keys.
    - exact (get_or_create_keys _ _ _ _ Hg).
    - apply lookup_collection_in. rewrite Hc. discriminate. }
  assert (Hin : collection_exists name st = true -> In name (list_collections st)).
  { unfold collection_exists, list_collections. intros He.
    apply lookup_collection_in.
    destruct (lookup_collection name (collections st)); [discriminate|discriminate He]. }
  split; [|split; [|split]].
  - intros x Hx. simpl. rewrite lookup_store_other by exact Hx.
    exact (get_or_create_other _ _ _ _ _ Hg Hx).
  - intros x. rewrite Hk. destruct (collection_exists name st) eqn:He.
    + split; [now right|]. intros [->|Hx]; [now apply Hin|exact Hx].
    + rewrite in_app_iff. simpl. split.
      * intros [Hx|[Hx|[]]]; [now right|now left].
      * intros [Hx|Hx]; [right; now left|now left].
  - rewrite Hk. destruct (collection_exists name st); simpl; [lia|].
    rewrite length_app. simpl. lia.
  - intros Hnd. rewrite Hk. unfold collection_exists.
    destruct (lookup_collection name (collections st)) eqn:Hl; [exact Hnd|].
    apply NoDup_app; [exact Hnd|constructor; [tauto|constructor]|].
    intros a Ha [Hb|[]]. subst a.
    apply (proj2 (lookup_collection_in name (collections st))); [exact Ha|exact Hl].
Qed.

Lemma index_transcript_keeps_others_witness :
  let ec := fun b : list pystr => Ok (map (fun _ => [1]) b) in
  let t := mkTranscript [mkSegment 0 5 (of_ascii "hello")] (of_ascii "hello") 5 in
  let st := mkRagState [(of_ascii "a", [])] None in
  exists st',
    index_transcript ec (fun _ => []) (fun _ => true) st t (Some (of_ascii "b"))
    = (st', Ok (of_ascii "transcript_b"))
    /\ (forall x, x <> of_ascii "transcript_b" ->
          lookup_collection x (collections st') = lookup_collection x (collections st))
    /\ (forall x, In x (list_collections st') <->
                  x = of_ascii "transcript_b" \/ In x (list_collections st))
    /\ List.length (list_collections st')
       = (List.length (list_collections st)
          + if collection_exists (of_ascii "transcript_b") st then 0 else 1)%nat
    /\ (NoDup (list_collections st) -> NoDup (list_collections st')).
Proof.
  intros ec t st. eexists. split; [vm_compute; reflexivity|].
  apply (index_transcript_keeps_others ec (fun _ => []) (fun _ => true) st t
           (Some (of_ascii "b"))).
  vm_compute. reflexivity.
Defined.

(** [ensure_collection_indexed] followed by [search] without a name, as
    api.py's [search_video] calls them: when it returns [False] nothing
    changed; when it returns [True] for a non-empty name, the current
    collection is a non-empty name of an existing collection, so the
    search that follows cannot raise [ValueError] or ChromaDB's not-found
    error: it is the query of that collection, which raises only what
    embedding the query or ChromaDB's [query] raise. *)
Theorem ensure_collection_indexed_then_search
    (embeddings_create : list pystr -> result (list (list Q)))
    (md5_hexdigest : list N -> pystr) (chroma_valid_name : pystr -> bool)
    (chroma_query : collection -> list Q -> Z -> result (list (chroma_record * Q)))
    (st : rag_state) (collection_name : pystr) (tr : option transcript)
    (b : bool) (st' : rag_state) :
  ensure_collection_indexed embeddings_create md5_hexdigest chroma_valid_name st
    collection_name tr = (st', Ok b) ->
  (b = false -> st' = st)
  /\ (b = true -> collection_name <> [] ->
      exists cur c, get_current_collection st' = Some cur /\ cur <> []
        /\ lookup_collection cur (collections st') = Some c
        /\ forall query n_results,
             search embeddings_create chroma_query st' query n_results None
             = query_collection embeddings_create chroma_query c query n_results
             /\ (forall v vs hits,
                   generate_embeddings_batched embeddings_create [query] = Ok (v :: vs) ->
                   chroma_query c v n_results = Ok hits ->
                   search embeddings_create chroma_query st' query n_results None
                   = Ok (map hit_result hits))).
Proof.
  assert (Hs : forall st1 cur c, current_collection_name st1 = Some cur -> cur <> [] ->
                 lookup_collection cur (collections st1) = Some c ->
                 forall q n,
                   search embeddings_create chroma_query st1 q n None
                   = query_collection embeddings_create chroma_query c q n
                   /\ (forall v vs hits,
                         generate_embeddings_batched embeddings_create [q] = Ok (v :: vs) ->
                         chroma_query c v n = Ok hits ->
                         search embeddings_create chroma_query st1 q n None
                         = Ok (map hit_result hits))).
  { intros st1 cur c Hc Hn Hl q n.
    assert (E : search embeddings_create chroma_query st1 q n None
                = query_collection embeddings_create chroma_query c q n).
    { unfold search. rewrite Hc.
      destruct cur as [|c0 cur]; [congruence|]. cbn [bind]. rewrite Hl. reflexivity. }
    split; [exact E|]. intros v vs hits Hv Hq. rewrite E.
    unfold query_collection. rewrite Hv. cbn [bind]. rewrite Hq. reflexivity. }
  unfold ensure_collection_indexed. intros H.
  destruct (collection_exists collection_name st) eqn:He.
  - injection H as <- <-. split; [discriminate|]. intros _ Hn.
    unfold collection_exists in He.
    destruct (lookup_collection collection_name (collections st)) as [c|] eqn:Hl;
      [|discriminate].
    exists collection_name, c. split; [reflexivity|]. split; [exact Hn|].
    split; [exact Hl|]. now apply (Hs (set_current st collection_name) collection_name c).
  - destruct tr as [t|]; [|injection H as <- <-; split; [reflexivity|discriminate]].
    destruct (t_segments t) as [|s0 segs];
      [injection H as <- <-; split; [reflexivity|discriminate]|].
    cbv zeta in H.
    match type of H with
    | context [index_transcript ?a ?b ?c ?d ?e ?f] =>
        destruct (index_transcript a b c d e f) as [st1 [n|e']] eqn:Hi
    end; [|discriminate].
    injection H as <- <-. split; [discriminate|]. intros _ _.
    destruct (index_transcript_ok_inv _ _ _ _ _ _ _ _ Hi)
      as (Hd & _ & sa & embs & c' & _ & _ & _ & ->).
    pose proof (derive_collection_name_nonempty _ _ _ _ Hd) as Hn.
    exists n, c'. split; [reflexivity|]. split; [exact Hn|].
    assert (Hl : lookup_collection n
                   (collections (set_current
                      (mkRagState (store_collection n c' (collections sa)) (Some n)) n))
                 = Some c') by apply lookup_store_collection.
    split; [exact Hl|]. now apply (Hs _ n c').
Qed.

Lemma ensure_collection_indexed_then_search_witness :
  let ec := fun b : list pystr => Ok (map (fun _ => [1]) b) in
  let cq := fun (c : collection) (_ : list Q) (_ : Z) => Ok (map (fun r => (r, 0)) c) in
  let st := mkRagState [(of_ascii "transcript_v", [])] None in
  exists st',
    ensure_collection_indexed ec (fun _ => []) (fun _ => true) st
      (of_ascii "transcript_v") None = (st', Ok true)
    /\ (true = false -> st' = st)
    /\ (true = true -> of_ascii "transcript_v" <> [] ->
        exists cur c, get_current_collection st' = Some cur /\ cur <> []
          /\ lookup_collection cur (collections st') = Some c
          /\ forall query n_results,
               search ec cq st' query n_results None
               = query_collection ec cq c query n_results
               /\ (forall v vs hits,
                     generate_embeddings_batched ec [query] = Ok (v :: vs) ->
                     cq c v n_results = Ok hits ->
                     search ec cq st' query n_results None = Ok (map hit_result hits))).
Proof.
  intros ec cq st. eexists. split; [vm_compute; reflexivity|].
  apply (ensure_collection_indexed_then_search ec (fun _ => []) (fun _ => true) cq st
           (of_ascii "transcript_v") None true).
  vm_compute. reflexivity.
Defined.

(** [index_transcript] (rag_engine.py) when it raises. Once ChromaDB has
    accepted the derived name, the collection of that name exists and is
    empty (it was created or cleared before the embedding and the [add]
    that raised), the other collections and the current one are as they
    were, and [ensure_collection_indexed] now takes the name for an
    indexed collection and returns [True] without indexing. When the name
    could not be derived or ChromaDB refused it, nothing changed. *)
Theorem index_transcript_failure
    (embeddings_create : list pystr -> result (list (list Q)))
    (md5_hexdigest : list N -> pystr) (chroma_valid_name : pystr -> bool)
    (st : rag_state) (t : transcript) (video_id : option pystr) (st' : rag_state)
    (e : py_exn) :
  index_transcript embeddings_create md5_hexdigest chroma_valid_name st t video_id
  = (st', Raise e) ->
  (forall name, derive_collection_name md5_hexdigest t video_id = Ok name ->
     chroma_valid_name name = true ->
     lookup_collection name (collections st') = Some []
     /\ (forall x, x <> name ->
           lookup_collection x (collections st') = lookup_collection x (collections st))
     /\ current_collection_name st' = current_collection_name st
     /\ forall tr,
          ensure_collection_indexed embeddings_create md5_hexdigest chroma_valid_name st'
            name tr = (set_current st' name, Ok true))
  /\ ((forall name, derive_collection_name md5_hexdigest t video_id = Ok name ->
         chroma_valid_name name = false) -> st' = st).
Proof.
  intros H. split.
  - intros name Hd Hv.
    destruct (index_transcript_raise_inv _ _ _ _ _ _ _ _ _ Hd Hv H) as (st1 & Hg & ->).
    assert (Hl : lookup_collection name
                   (collections (mkRagState (store_collection name [] (collections st1))
                                            (current_collection_name st)))
                 = Some []) by apply lookup_store_collection.
    split; [exact Hl|]. split; [|split; [reflexivity|]].
    + intros x Hx. simpl. rewrite lookup_store_other by exact Hx.
      exact (get_or_create_other _ _ _ _ _ Hg Hx).
    + intros tr. unfold ensure_collection_indexed, collection_exists. now rewrite Hl.
  - intros Hn.
    destruct (derive_collection_name md5_hexdigest t video_id) as [n|e'] eqn:Hd.
    + rewrite (index_transcript_invalid _ _ _ _ _ _ _ Hd (Hn n eq_refl)) in H.
      now injection H as <-.
    + rewrite (index_transcript_derive_error _ _ _ _ _ _ _ Hd) in H.
      now injection H as <-.
Qed.

(** The empty transcript: ChromaDB creates [transcript_b], then refuses
    the [add] of no records, and [transcript_b] stays, empty. *)
Lemma index_transcript_failure_witness :
  let ec := fun b : list pystr => Ok (map (fun _ => [1]) b) in
  let st := mkRagState [(of_ascii "a", [])] None in
  exists st',
    index_transcript ec (fun _ => []) (fun _ => true) st (mkTranscript [] [] 0)
      (Some (of_ascii "b")) = (st', Raise ValueError)
    /\ lookup_collection (of_ascii "transcript_b") (collections st') = Some []
    /\ ensure_collection_indexed ec (fun _ => []) (fun _ => true) st'
         (of_ascii "transcript_b") None
       = (set_current st' (of_ascii "transcript_b"), Ok true).
Proof.
  intros ec st. eexists. split; [vm_compute; reflexivity|].
  match goal with
  | |- _ /\ ensure_collection_indexed _ _ _ ?s _ _ = _ =>
      assert (E : index_transcript ec (fun _ => []) (fun _ => true) st
                    (mkTranscript [] [] 0) (Some (of_ascii "b")) = (s, Raise ValueError))
        by (vm_compute; reflexivity)
  end.
  destruct (proj1 (index_transcript_failure ec (fun _ => []) (fun _ => true) st
                     (mkTranscript [] [] 0) (Some (of_ascii "b")) _ _ E)
              (of_ascii "transcript_b") ltac:(vm_compute; reflexivity) eq_refl)
    as (H1 & _ & _ & H4).
  split; [exact H1|exact (H4 None)].
Defined.



(** ** The runs of [chunk_transcript] *)

Lemma concat_nonempty_nil {A : Type} (G : list (list A)) :
  Forall (fun g => g <> []) G -> List.concat G = [] -> G = [].
Proof.
  intros HF HC. destruct G as [|g G]; [reflexivity|].
  inversion HF; subst. simpl in HC. apply app_eq_nil in HC as [-> _]. congruence.
Qed.

Lemma concat_nonempty_length {A : Type} (G : list (list A)) :
  Forall (fun g => g <> []) G -> (List.length G <= List.length (List.concat G))%nat.
Proof.
  induction G as [|g G IH]; intros HF; simpl; [lia|].
  inversion HF as [|? ? Hg HG]; subst. rewrite length_app.
  destruct g; [congruence|]. simpl. specialize (IH HG). lia.
Qed.

Lemma chunk_loop_runs (m : Z) (n : nat) (segs : list segment) :
  forall i chunks curg cs ce,
  (i + List.length segs)%nat = n ->
  (segs = [] -> curg = []) ->
  (curg <> [] -> cs = seg_start (hd (mkSegment 0 0 []) curg)) ->
  (forall j, (0 < j <= List.length curg)%nat ->
     (Z.of_nat (List.length (c_text (chunk_of_run (firstn j curg)))) < m)%Z) ->
  exists G,
    List.concat G = curg ++ segs
    /\ Forall (fun g => g <> []) G
    /\ chunk_loop m n i segs chunks (map seg_text curg) cs ce = chunks ++ map chunk_of_run G
    /\ Forall (fun g => forall j, (0 < j < List.length g)%nat ->
                 (Z.of_nat (List.length (c_text (chunk_of_run (firstn j g)))) < m)%Z) G
    /\ (forall k, (S k < List.length G)%nat ->
          (m <= Z.of_nat (List.length (c_text (chunk_of_run (nth k G [])))))%Z).
Proof.
  induction segs as [|seg rest IH]; intros i chunks curg cs ce Hn Hnil Hcs Hpre.
  - rewrite (Hnil eq_refl). exists []. simpl. rewrite app_nil_r.
    repeat split; try constructor. intros k Hk. simpl in Hk. lia.
  - cbn [chunk_loop].
    replace (map seg_text curg ++ [seg_text seg]) with (map seg_text (curg ++ [seg]))
      by (now rewrite map_app).
    set (cs' := match map seg_text curg with [] => seg_start seg | _ :: _ => cs end).
    assert (Hcs' : cs' = seg_start (hd (mkSegment 0 0 []) (curg ++ [seg]))).
    { unfold cs'. destruct curg as [|s0 curg]; [reflexivity|]. simpl.
      apply Hcs. discriminate. }
    assert (Hrun : mkChunk (py_join space (map seg_text (curg ++ [seg]))) cs' (seg_end seg)
                   = chunk_of_run (curg ++ [seg])).
    { unfold chunk_of_run. rewrite Hcs', last_last. reflexivity. }
    assert (Hpre' : forall j, (0 < j <= List.length curg)%nat ->
              firstn j (curg ++ [seg]) = firstn j curg)
      by (intros j Hj; rewrite firstn_app; replace (j - List.length curg)%nat with 0%nat
            by lia; now rewrite app_nil_r).
    simpl in Hn.
    destruct ((m <=? Z.of_nat (List.length (py_join space (map seg_text (curg ++ [seg])))))%Z
              || (Z.of_nat i =? Z.of_nat n - 1)%Z) eqn:Hcond.
    + destruct (IH (S i) (chunks ++ [mkChunk (py_join space (map seg_text (curg ++ [seg])))
                                        cs' (seg_end seg)]) [] cs' (seg_end seg))
        as (G & HG1 & HG2 & HG3 & HG4 & HG5).
      * lia.
      * reflexivity.
      * congruence.
      * simpl. lia.
      * exists ((curg ++ [seg]) :: G). repeat split.
        -- simpl. rewrite HG1, <- app_assoc. reflexivity.
        -- constructor; [|exact HG2]. destruct curg; discriminate.
        -- change (map seg_text []) with (@nil pystr) in HG3. rewrite HG3, Hrun.
           simpl. now rewrite <- app_assoc.
        -- constructor; [|exact HG4]. intros j Hj. rewrite length_app in Hj. simpl in Hj.
           rewrite Hpre' by lia. apply Hpre. lia.
        -- intros [|k] Hk; simpl in Hk.
           ++ simpl. apply orb_true_iff in Hcond as [Hc|Hc]; [now apply Z.leb_le|].
              exfalso. apply Z.eqb_eq in Hc.
              assert (rest = []) as -> by (destruct rest; [reflexivity|simpl in Hn; lia]).
              rewrite (concat_nonempty_nil G HG2 HG1) in Hk. simpl in Hk. lia.
           ++ apply HG5. lia.
    + apply orb_false_iff in Hcond as [Hc1 Hc2].
      apply Z.leb_gt in Hc1. apply Z.eqb_neq in Hc2.
      destruct (IH (S i) chunks (curg ++ [seg]) cs' (seg_end seg))
        as (G & HG1 & HG2 & HG3 & HG4 & HG5).
      * lia.
      * intros ->. simpl in Hn. lia.
      * intros _. exact Hcs'.
      * intros j Hj. rewrite length_app in Hj. simpl in Hj.
        destruct (Nat.eq_dec j (S (List.length curg))) as [->|Hne].
        -- rewrite firstn_all2 by (rewrite length_app; simpl; lia). exact Hc1.
        -- rewrite Hpre' by lia. apply Hpre. lia.
      * exists G. repeat split; try assumption. rewrite HG1, <- app_assoc. reflexivity.
Qed.

(** [chunk_transcript] (rag_engine.py) cuts the segments into consecutive
    non-empty runs and makes one chunk per run: its text is the run's texts
    joined by spaces, its start the run's first segment's start and its end
    the run's last segment's end. A run is cut as soon as its text reaches
    [min_chunk_length] characters (no shorter prefix of a run reaches it),
    and every chunk but the last reaches it; so there are never more chunks
    than segments. *)
Theorem chunk_transcript_runs (t : transcript) (min_chunk_length : Z) :
  exists G : list (list segment),
    List.concat G = t_segments t
    /\ Forall (fun g => g <> []) G
    /\ chunk_transcript t min_chunk_length = map chunk_of_run G
    /\ Forall (fun g => forall j, (0 < j < List.length g)%nat ->
                 (Z.of_nat (List.length (c_text (chunk_of_run (firstn j g))))
                  < min_chunk_length)%Z) G
    /\ (forall k, (S k < List.length G)%nat ->
          (min_chunk_length
           <= Z.of_nat (List.length (c_text (chunk_of_run (nth k G [])))))%Z)
    /\ (List.length (chunk_transcript t min_chunk_length)
        <= List.length (t_segments t))%nat.
Proof.
  destruct (chunk_loop_runs min_chunk_length (List.length (t_segments t)) (t_segments t)
              0 [] [] 0 0) as (G & HG1 & HG2 & HG3 & HG4 & HG5).
  - reflexivity.
  - reflexivity.
  - congruence.
  - simpl. lia.
  - assert (Hc : chunk_transcript t min_chunk_length = map chunk_of_run G)
      by exact HG3.
    simpl in HG1. exists G. repeat split; try assumption.
    rewrite Hc, length_map, <- HG1. now apply concat_nonempty_length.
Qed.

(** ** The batches of [generate_embeddings] *)

Lemma firstn_add_split {A : Type} (a b : nat) (l : list A) :
  firstn (a + b) l = firstn a l ++ firstn b (skipn a l).
Proof.
  revert l. induction a as [|a IH]; intros l; [reflexivity|].
  destruct l as [|x l]; simpl; [now rewrite firstn_nil|]. now rewrite IH.
Qed.

Lemma batches_concat {A : Type} (l : list A) (c s : nat) :
  List.concat (map (fun k => firstn 100 (skipn (k * 100) l)) (seq s c))
  = firstn (c * 100) (skipn (s * 100) l).
Proof.
  revert s. induction c as [|c IH]; intros s; [reflexivity|].
  cbn [seq map List.concat]. rewrite IH.
  replace (S c * 100)%nat with (100 + c * 100)%nat by lia.
  rewrite firstn_add_split, skipn_skipn. do 3 f_equal.
Qed.

Lemma fold_left_map_arg {A B C : Type} (h : A -> B -> A) (g : C -> B) (l : list C) (a : A) :
  fold_left (fun acc x => h acc (g x)) l a = fold_left h (map g l) a.
Proof. revert a. induction l as [|x l IH]; intros a; simpl; [reflexivity|apply IH]. Qed.

Definition embed_step (embeddings_create : list pystr -> result (list (list Q)))
    (acc : result (list (list Q))) (batch : list pystr) : result (list (list Q)) :=
  all_embeddings <- acc ;;
  batch_embeddings <- embeddings_create batch ;;
  Ok (all_embeddings ++ batch_embeddings).

Lemma embed_fold_raise (ec : list pystr -> result (list (list Q))) (l : list (list pystr))
    (e : py_exn) :
  fold_left (embed_step ec) l (Raise e) = Raise e.
Proof. induction l as [|b l IH]; simpl; [reflexivity|exact IH]. Qed.

Lemma embed_fold_ok (ec : list pystr -> result (list (list Q))) (embed : pystr -> list Q)
    (l : list (list pystr)) (acc : list (list Q)) :
  (forall b, In b l -> ec b = Ok (map embed b)) ->
  fold_left (embed_step ec) l (Ok acc) = Ok (acc ++ List.concat (map (map embed) l)).
Proof.
  revert acc. induction l as [|b l IH]; intros acc H; cbn [fold_left map List.concat].
  - now rewrite app_nil_r.
  - replace (embed_step ec (Ok acc) b) with (Ok (acc ++ map embed b))
      by (unfold embed_step; cbn [bind]; now rewrite (H b (or_introl eq_refl))).
    rewrite IH by (intros; apply H; now right). now rewrite app_assoc.
Qed.

Lemma embed_fold_all_ok (ec : list pystr -> result (list (list Q)))
    (l : list (list pystr)) (acc : list (list Q)) :
  (forall b, In b l -> exists vs, ec b = Ok vs) ->
  exists vs, fold_left (embed_step ec) l (Ok acc) = Ok vs.
Proof.
  revert acc. induction l as [|b l IH]; intros acc H; cbn [fold_left]; [eauto|].
  destruct (H b (or_introl eq_refl)) as [vs Hb].
  replace (embed_step ec (Ok acc) b) with (Ok (acc ++ vs))
    by (unfold embed_step; cbn [bind]; now rewrite Hb).
  apply IH. intros; apply H; now right.
Qed.

(** [generate_embeddings] (rag_engine.py): the batches it sends, in order,
    are consecutive slices of the texts, each non-empty and of at most 100
    texts, that together are exactly the texts. When the endpoint returns
    one vector per text of every batch, the result is one vector per text,
    in order; when a batch raises after the earlier ones succeeded, the
    whole call raises that batch's exception. *)
Theorem generate_embeddings_batches
    (embeddings_create : list pystr -> result (list (list Q))) (texts : list pystr) :
  let batches := map (fun i => firstn 100 (skipn i texts))
                   (py_range 0 (List.length texts) 100) in
  List.concat batches = texts
  /\ Forall (fun b => b <> [] /\ (List.length b <= 100)%nat) batches
  /\ (forall embed : pystr -> list Q,
        (forall b, In b batches -> embeddings_create b = Ok (map embed b)) ->
        generate_embeddings_batched embeddings_create texts
        = Ok (map embed texts))
  /\ (forall pre b post e,
        batches = pre ++ b :: post ->
        (forall b', In b' pre -> exists vs, embeddings_create b' = Ok vs) ->
        embeddings_create b = Raise e ->
        generate_embeddings_batched embeddings_create texts = Raise e).
Proof.
  intros batches.
  assert (Hgen : generate_embeddings_batched embeddings_create texts
                 = fold_left (embed_step embeddings_create) batches (Ok [])).
  { unfold generate_embeddings_batched, batches.
    rewrite <- fold_left_map_arg. reflexivity. }
  assert (Hcat : List.concat batches = texts).
  { unfold batches, py_range. rewrite map_map.
    set (c := ((List.length texts - 0 + 100 - 1) / 100)%nat).
    replace (map (fun x => firstn 100 (skipn (0 + x * 100) texts)) (seq 0 c))
      with (map (fun k => firstn 100 (skipn (k * 100) texts)) (seq 0 c))
      by (apply map_ext; intros; reflexivity).
    rewrite batches_concat. simpl. apply firstn_all2.
    unfold c. pose proof (Nat.div_mod (List.length texts - 0 + 100 - 1) 100 ltac:(lia)).
    pose proof (Nat.mod_upper_bound (List.length texts - 0 + 100 - 1) 100 ltac:(lia)).
    lia. }
  split; [exact Hcat|]. split; [|split].
  - unfold batches, py_range. rewrite map_map. apply Forall_map, Forall_forall.
    intros k Hk. apply in_seq in Hk. split.
    + assert (Hlt : (0 + k * 100 < List.length texts)%nat).
      { destruct Hk as [_ Hk].
        set (L := List.length texts) in *.
        set (D := ((L - 0 + 100 - 1) / 100)%nat) in *.
        pose proof (Nat.div_mod (L - 0 + 100 - 1) 100 ltac:(lia)) as E1.
        pose proof (Nat.mod_upper_bound (L - 0 + 100 - 1) 100 ltac:(lia)) as E2.
        fold D in E1. nia. }
      intros He. apply (f_equal (@List.length pystr)) in He.
      rewrite length_firstn, length_skipn in He. change (List.length (@nil pystr)) with 0%nat in He. lia.
    + apply firstn_le_length.
  - intros embed Hok. rewrite Hgen, (embed_fold_ok _ embed) by exact Hok. simpl.
    now rewrite <- concat_map, Hcat.
  - intros pre b post e Hb Hpre He. rewrite Hgen, Hb, fold_left_app.
    destruct (embed_fold_all_ok embeddings_create pre [] Hpre) as [vs Hvs].
    rewrite Hvs. cbn [fold_left].
    replace (embed_step embeddings_create (Ok vs) b) with (@Raise (list (list Q)) e)
      by (unfold embed_step; cbn [bind]; now rewrite He).
    apply embed_fold_raise.
Qed.

(** ** Decoded dicts: lookups and [d[key] = x] *)

Lemma find_none_all {A : Type} (f : A -> bool) (l : list A) :
  (forall a, In a l -> f a = false) -> find f l = None.
Proof.
  induction l as [|a l IH]; intros H; simpl; [reflexivity|].
  rewrite (H a (or_introl eq_refl)). apply IH. intros; apply H; now right.
Qed.

Lemma find_key_absent (key : pystr) (kvs : list (pystr * json)) :
  ~ In key (map fst kvs) ->
  find (fun kv => pystr_eqb (fst kv) key) (rev kvs) = None.
Proof.
  intros Hn. apply find_none_all. intros [k v] Hin. apply in_rev in Hin.
  simpl. apply pystr_eqb_false. intros Hk. subst k. apply Hn.
  apply in_map_iff. exists (key, v). auto.
Qed.

Lemma find_app_none {A : Type} (f : A -> bool) (l1 l2 : list A) :
  find f l1 = None -> find f (l1 ++ l2) = find f l2.
Proof.
  induction l1 as [|a l1 IH]; simpl; [reflexivity|].
  destruct (f a); [discriminate|exact IH].
Qed.

Lemma find_key_last (key : pystr) (pre post : list (pystr * json)) (x : json) :
  ~ In key (map fst post) ->
  find (fun kv => pystr_eqb (fst kv) key) (rev (pre ++ (key, x) :: post)) = Some (key, x).
Proof.
  intros Hn. rewrite rev_app_distr. simpl. rewrite <- app_assoc. simpl.
  rewrite find_app_none by (now apply find_key_absent). simpl.
  now rewrite pystr_eqb_refl.
Qed.

Lemma getitem_last (key : pystr) (pre post : list (pystr * json)) (x : json) :
  ~ In key (map fst post) -> getitem (JObj (pre ++ (key, x) :: post)) key = Ok x.
Proof. intros Hn. unfold getitem. now rewrite find_key_last. Qed.

Lemma dict_get_last (key : pystr) (pre post : list (pystr * json)) (x d : json) :
  ~ In key (map fst post) -> dict_get (JObj (pre ++ (key, x) :: post)) key d = Ok x.
Proof. intros Hn. unfold dict_get. now rewrite find_key_last. Qed.

Lemma dict_get_absent (key : pystr) (kvs : list (pystr * json)) (d : json) :
  ~ In key (map fst kvs) -> dict_get (JObj kvs) key d = Ok d.
Proof. intros Hn. unfold dict_get. now rewrite find_key_absent. Qed.

Lemma find_map_keyfun (k : pystr) (g : pystr * json -> pystr * json)
    (l : list (pystr * json)) :
  (forall kv, fst (g kv) = fst kv) ->
  find (fun kv => pystr_eqb (fst kv) k) (map g l)
  = option_map g (find (fun kv => pystr_eqb (fst kv) k) l).
Proof.
  intros Hg. induction l as [|kv l IH]; simpl; [reflexivity|].
  rewrite Hg. destruct (pystr_eqb (fst kv) k); [reflexivity|exact IH].
Qed.

Lemma find_some_exists {A : Type} (f : A -> bool) (l : list A) :
  existsb f l = true -> exists a, find f l = Some a /\ f a = true.
Proof.
  induction l as [|a l IH]; simpl; [discriminate|].
  destruct (f a) eqn:E; simpl; [eauto|exact IH].
Qed.

Lemma existsb_rev {A : Type} (f : A -> bool) (l : list A) :
  existsb f (rev l) = existsb f l.
Proof.
  induction l as [|a l IH]; simpl; [reflexivity|].
  rewrite existsb_app, IH. simpl. now rewrite orb_false_r, orb_comm.
Qed.

(** [d[key] = x] on a dict: afterwards [d[key]] is [x] and every other
    key reads as before. *)
Lemma json_setitem_obj (kvs : list (pystr * json)) (key : pystr) (x : json) :
  exists kvs', json_setitem (JObj kvs) key x = Ok (JObj kvs')
    /\ getitem (JObj kvs') key = Ok x
    /\ (forall k, k <> key -> getitem (JObj kvs') k = getitem (JObj kvs) k)
    /\ (forall k d, k <> key -> dict_get (JObj kvs') k d = dict_get (JObj kvs) k d).
Proof.
  set (g := fun kv : pystr * json => if pystr_eqb (fst kv) key then (fst kv, x) else kv).
  assert (Hg : forall kv, fst (g kv) = fst kv)
    by (intros kv; unfold g; destruct (pystr_eqb (fst kv) key); reflexivity).
  assert (Hoth : forall k, k <> key ->
            find (fun kv => pystr_eqb (fst kv) k) (rev (map g kvs))
            = find (fun kv => pystr_eqb (fst kv) k) (rev kvs)).
  { intros k Hk. rewrite <- map_rev, find_map_keyfun by exact Hg.
    destruct (find (fun kv => pystr_eqb (fst kv) k) (rev kvs)) as [[k' v]|] eqn:Hf;
      [|reflexivity].
    apply find_some in Hf as [_ Hf]. simpl in Hf. apply pystr_eqb_true in Hf. subst k'.
    simpl. unfold g. simpl. now rewrite pystr_eqb_false by exact Hk. }
  assert (Hoth2 : forall k, k <> key ->
            find (fun kv => pystr_eqb (fst kv) k) (rev (kvs ++ [(key, x)]))
            = find (fun kv => pystr_eqb (fst kv) k) (rev kvs)).
  { intros k Hk. rewrite rev_app_distr. simpl.
    now rewrite pystr_eqb_false by congruence. }
  unfold json_setitem.
  destruct (existsb (fun kv => pystr_eqb (fst kv) key) kvs) eqn:He.
  - exists (map g kvs). split; [reflexivity|]. split; [|split].
    + unfold getitem. rewrite <- map_rev, find_map_keyfun by exact Hg.
      rewrite <- existsb_rev in He. destruct (find_some_exists _ _ He) as ([k v] & Hf & Hk).
      rewrite Hf. simpl in Hk |- *. unfold g. simpl. now rewrite Hk.
    + intros k Hk. unfold getitem. now rewrite Hoth.
    + intros k d Hk. unfold dict_get. now rewrite Hoth.
  - exists (kvs ++ [(key, x)]). split; [reflexivity|]. split; [|split].
    + unfold getitem. rewrite rev_app_distr. simpl. now rewrite pystr_eqb_refl.
    + intros k Hk. unfold getitem. now rewrite Hoth2.
    + intros k d Hk. unfold dict_get. now rewrite Hoth2.
Qed.

(** ** The chat helpers of query_handler.py *)

(** [generate_summary] and [_extract_quick_keypoints] send at most the
    first 100000 characters of a transcript's full text: two transcripts
    longer than that which agree on those characters get the same requests,
    hence the same results. *)
Theorem long_transcripts_send_prefix
    (chat : chat_options -> list message -> result pystr)
    (json_loads : pystr -> option json) (t1 t2 : transcript) :
  (100000 < List.length (t_full_text t1))%nat ->
  (100000 < List.length (t_full_text t2))%nat ->
  firstn 100000 (t_full_text t1) = firstn 100000 (t_full_text t2) ->
  generate_summary chat t1 = generate_summary chat t2
  /\ extract_quick_keypoints chat json_loads t1 = extract_quick_keypoints chat json_loads t2.
Proof.
  intros H1 H2 Hp.
  assert (E : truncate_text 100000 (of_ascii "...") (t_full_text t1)
              = truncate_text 100000 (of_ascii "...") (t_full_text t2)).
  { unfold truncate_text.
    replace (Nat.ltb 100000 (List.length (t_full_text t1))) with true
      by (symmetry; now apply Nat.ltb_lt).
    replace (Nat.ltb 100000 (List.length (t_full_text t2))) with true
      by (symmetry; now apply Nat.ltb_lt).
    now rewrite Hp. }
  unfold generate_summary, extract_quick_keypoints. cbv zeta. rewrite E. split; reflexivity.
Qed.

Lemma long_transcripts_send_prefix_witness :
  let t1 := mkTranscript [] (repeat 97%N 100001) 0 in
  let t2 := mkTranscript [] (repeat 97%N 100000 ++ [98%N]) 0 in
  (100000 < List.length (t_full_text t1))%nat
  /\ (100000 < List.length (t_full_text t2))%nat
  /\ firstn 100000 (t_full_text t1) = firstn 100000 (t_full_text t2)
  /\ t_full_text t1 <> t_full_text t2
  /\ generate_summary (fun _ ms => Ok (List.concat (map msg_content ms))) t1
     = generate_summary (fun _ ms => Ok (List.concat (map msg_content ms))) t2
  /\ extract_quick_keypoints (fun _ ms => Ok (List.concat (map msg_content ms))) (fun _ => None) t1
     = extract_quick_keypoints (fun _ ms => Ok (List.concat (map msg_content ms))) (fun _ => None) t2.
Proof.
  intros t1 t2.
  assert (H1 : (100000 < List.length (t_full_text t1))%nat).
  { unfold t1. cbn [t_full_text]. rewrite repeat_length.
    apply Nat.ltb_lt. vm_compute. reflexivity. }
  assert (H2 : (100000 < List.length (t_full_text t2))%nat).
  { unfold t2. cbn [t_full_text]. rewrite length_app, repeat_length.
    apply Nat.ltb_lt. vm_compute. reflexivity. }
  assert (Hp : firstn 100000 (t_full_text t1) = firstn 100000 (t_full_text t2))
    by (apply pystr_eqb_true; vm_compute; reflexivity).
  split; [exact H1|]. split; [exact H2|]. split; [exact Hp|]. split.
  - intros H. apply (f_equal (fun l => nth 100000 l 0%N)) in H.
    vm_compute in H. discriminate H.
  - exact (long_transcripts_send_prefix _ _ t1 t2 H1 H2 Hp).
Defined.

(** [_extract_quick_keypoints] with a model that replies [c]: a reply
    that is not JSON raises [JSONDecodeError]; a JSON reply that is not an
    object raises [AttributeError]; an object without ["key_points"] gives
    the empty list; otherwise the value of its last ["key_points"] entry is
    returned as it is, whatever its type. *)
Theorem extract_quick_keypoints_reply (json_loads : pystr -> option json)
    (t : transcript) (c : pystr) :
  let r := extract_quick_keypoints (fun _ _ => Ok c) json_loads t in
  (json_loads c = None -> r = Raise JSONDecodeError)
  /\ (forall v, json_loads c = Some v -> (forall kvs, v <> JObj kvs) ->
        r = Raise AttributeError)
  /\ (forall kvs, json_loads c = Some (JObj kvs) ->
        ~ In (of_ascii "key_points") (map fst kvs) -> r = Ok (JArr []))
  /\ (forall pre x post,
        json_loads c = Some (JObj (pre ++ (of_ascii "key_points", x) :: post)) ->
        ~ In (of_ascii "key_points") (map fst post) -> r = Ok x).
Proof.
  intros r. unfold r, extract_quick_keypoints. cbn [bind].
  split; [|split; [|split]].
  - intros H. now rewrite H.
  - intros v H Hv. rewrite H. destruct v; try reflexivity. exfalso. eapply Hv. reflexivity.
  - intros kvs H Hn. rewrite H. now apply dict_get_absent.
  - intros pre x post H Hn. rewrite H. now apply dict_get_last.
Qed.

Lemma Ok_inj {A : Type} (a b : A) : Ok a = Ok b -> a = b.
Proof. intros H. now injection H. Qed.

Lemma key_points_md_prefix (str_other : json -> pystr) (kps : list json) :
  forall md i r, key_points_md str_other md i kps = Ok r -> exists rest, r = md ++ rest.
Proof.
  induction kps as [|kp kps IH]; intros md i r H; cbn [key_points_md] in H.
  - injection H as <-. exists []. now rewrite app_nil_r.
  - destruct (getitem kp (of_ascii "timestamp_start")) as [ts|e]; cbn [bind] in H;
      [|discriminate].
    destruct (as_number ts) as [tsq|e]; cbn [bind] in H; [|discriminate].
    destruct (getitem kp (of_ascii "title")) as [ti|e]; cbn [bind] in H; [|discriminate].
    destruct (getitem kp (of_ascii "importance")) as [im|e]; cbn [bind] in H;
      [|discriminate].
    destruct (dict_get kp (of_ascii "screenshot_url") JNull) as [sh|e]; cbn [bind] in H;
      [|discriminate].
    destruct (py_truthy sh).
    + destruct (getitem kp (of_ascii "screenshot_url")) as [u|e]; cbn [bind] in H;
        [|discriminate].
      destruct (getitem kp (of_ascii "summary")) as [su|e]; cbn [bind] in H;
        [|discriminate].
      destruct (IH _ _ _ H) as [rest ->]. eexists. now rewrite <- !app_assoc.
    + cbn [bind] in H.
      destruct (getitem kp (of_ascii "summary")) as [su|e]; cbn [bind] in H;
        [|discriminate].
      destruct (IH _ _ _ H) as [rest ->]. eexists. now rewrite <- !app_assoc.
Qed.

Lemma markdown_head (str_other : json -> pystr) (doc : json) (title : pystr) (d : Q)
    (md : pystr) :
  getitem doc (of_ascii "title") = Ok (JStr title) ->
  getitem doc (of_ascii "duration") = Ok (JNum d) ->
  format_helper_document_markdown str_other doc = Ok md ->
  exists rest, md = of_ascii "# " ++ title ++ nl ++ nl ++ of_ascii "**Duration:** "
                    ++ format_duration d ++ nl ++ nl ++ rest.
Proof.
  intros Ht Hd H. unfold format_helper_document_markdown in H.
  rewrite Ht, Hd in H. cbn [bind as_number py_str] in H.
  destruct (getitem doc (of_ascii "overview")) as [ov|e]; cbn [bind] in H; [|discriminate].
  destruct (getitem doc (of_ascii "key_points")) as [kv|e]; cbn [bind] in H;
    [|discriminate].
  destruct (py_iter kv) as [kps|e]; cbn [bind] in H; [|discriminate].
  destruct (key_points_md str_other _ 1 kps) as [m|e] eqn:Hk; cbn [bind] in H;
    [|discriminate].
  destruct (key_points_md_prefix _ _ _ _ _ Hk) as [r1 ->].
  destruct (dict_get doc (of_ascii "action_items") JNull) as [ai|e]; cbn [bind] in H;
    [|discriminate].
  destruct (py_truthy ai).
  - destruct (getitem doc (of_ascii "action_items")) as [iv|e]; cbn [bind] in H;
      [|discriminate].
    destruct (py_iter iv) as [items|e]; cbn [bind] in H; [|discriminate].
    apply Ok_inj in H. subst md. eexists. now rewrite <- !app_assoc.
  - apply Ok_inj in H. subst md. eexists. now rewrite <- !app_assoc.
Qed.

(** [generate_helper_document] with a model that replies [c]: a reply that
    is not JSON raises [JSONDecodeError] and a JSON reply that is not an
    object raises [TypeError]. For an object, the document is that object
    with ["title"] set to the video title and ["duration"] to the
    transcript's duration (whatever the model put there), every other key
    as the model replied; and its markdown, when it can be built, opens
    with that title and duration. *)
Theorem helper_document_title_duration (json_loads : pystr -> option json)
    (str_other : json -> pystr) (t : transcript) (video_title c : pystr) :
  let r := generate_helper_document (fun _ _ => Ok c) json_loads t video_title in
  (json_loads c = None -> r = Raise JSONDecodeError)
  /\ (forall v, json_loads c = Some v -> (forall kvs, v <> JObj kvs) -> r = Raise TypeError)
  /\ (forall kvs, json_loads c = Some (JObj kvs) ->
        exists kvs', r = Ok (JObj kvs')
          /\ getitem (JObj kvs') (of_ascii "title") = Ok (JStr video_title)
          /\ getitem (JObj kvs') (of_ascii "duration") = Ok (JNum (t_duration t))
          /\ (forall k, k <> of_ascii "title" -> k <> of_ascii "duration" ->
                getitem (JObj kvs') k = getitem (JObj kvs) k)
          /\ (forall md, format_helper_document_markdown str_other (JObj kvs') = Ok md ->
                exists rest, md = of_ascii "# " ++ video_title ++ nl ++ nl
                                  ++ of_ascii "**Duration:** " ++ format_duration (t_duration t)
                                  ++ nl ++ nl ++ rest)).
Proof.
  intros r. unfold r, generate_helper_document. cbn [bind].
  split; [|split].
  - intros H. now rewrite H.
  - intros v H Hv. rewrite H. destruct v; try reflexivity. exfalso. eapply Hv. reflexivity.
  - intros kvs H. rewrite H.
    destruct (json_setitem_obj kvs (of_ascii "title") (JStr video_title))
      as (kvs1 & E1 & G1 & O1 & _).
    rewrite E1. cbn [bind].
    destruct (json_setitem_obj kvs1 (of_ascii "duration") (JNum (t_duration t)))
      as (kvs2 & E2 & G2 & O2 & _).
    rewrite E2. exists kvs2. split; [reflexivity|].
    assert (Gt : getitem (JObj kvs2) (of_ascii "title") = Ok (JStr video_title))
      by (rewrite O2 by (vm_compute; discriminate); exact G1).
    split; [exact Gt|]. split; [exact G2|]. split.
    + intros k Hk1 Hk2. rewrite O2 by exact Hk2. now apply O1.
    + intros md Hmd. exact (markdown_head str_other _ _ _ _ Gt G2 Hmd).
Qed.

Lemma helper_document_title_duration_witness :
  exists kvs', generate_helper_document (fun _ _ => Ok []) (fun _ => Some (JObj []))
                 (mkTranscript [] [] 90) (of_ascii "Intro") = Ok (JObj kvs')
    /\ getitem (JObj kvs') (of_ascii "title") = Ok (JStr (of_ascii "Intro"))
    /\ getitem (JObj kvs') (of_ascii "duration") = Ok (JNum 90)
    /\ (forall k, k <> of_ascii "title" -> k <> of_ascii "duration" ->
          getitem (JObj kvs') k = getitem (JObj []) k)
    /\ (forall md, format_helper_document_markdown (fun _ => []) (JObj kvs') = Ok md ->
          exists rest, md = of_ascii "# " ++ of_ascii "Intro" ++ nl ++ nl
                            ++ of_ascii "**Duration:** " ++ format_duration 90
                            ++ nl ++ nl ++ rest).
Proof.
  exact (proj2 (proj2 (helper_document_title_duration (fun _ => Some (JObj [])) (fun _ => [])
                         (mkTranscript [] [] 90) (of_ascii "Intro") [])) [] eq_refl).
Defined.

Lemma key_points_md_fields (str_other : json -> pystr) (kps : list json) :
  forall md i r, key_points_md str_other md i kps = Ok r ->
  Forall (fun kp =>
            (exists v q, getitem kp (of_ascii "timestamp_start") = Ok v /\ as_number v = Ok q)
            /\ (exists v, getitem kp (of_ascii "title") = Ok v)
            /\ (exists v, getitem kp (of_ascii "importance") = Ok v)
            /\ (exists v, getitem kp (of_ascii "summary") = Ok v)) kps.
Proof.
  induction kps as [|kp kps IH]; intros md i r H; cbn [key_points_md] in H; [constructor|].
  destruct (getitem kp (of_ascii "timestamp_start")) as [ts|e] eqn:E1; cbn [bind] in H;
    [|discriminate].
  destruct (as_number ts) as [tsq|e] eqn:E2; cbn [bind] in H; [|discriminate].
  destruct (getitem kp (of_ascii "title")) as [ti|e] eqn:E3; cbn [bind] in H;
    [|discriminate].
  destruct (getitem kp (of_ascii "importance")) as [im|e] eqn:E4; cbn [bind] in H;
    [|discriminate].
  destruct (dict_get kp (of_ascii "screenshot_url") JNull) as [sh|e]; cbn [bind] in H;
    [|discriminate].
  assert (K : forall m, (summary <- getitem kp (of_ascii "summary") ;;
                         key_points_md str_other (m ++ py_str str_other summary ++ nl ++ nl)
                           (i + 1)%N kps) = Ok r ->
              Forall (fun kp =>
                (exists v q, getitem kp (of_ascii "timestamp_start") = Ok v
                             /\ as_number v = Ok q)
                /\ (exists v, getitem kp (of_ascii "title") = Ok v)
                /\ (exists v, getitem kp (of_ascii "importance") = Ok v)
                /\ (exists v, getitem kp (of_ascii "summary") = Ok v)) (kp :: kps)).
  { intros m Hm. destruct (getitem kp (of_ascii "summary")) as [su|e] eqn:E5;
      cbn [bind] in Hm; [|discriminate].
    constructor; [|exact (IH _ _ _ Hm)].
    split; [eauto|]. split; [eauto|]. split; eauto. }
  destruct (py_truthy sh).
  - destruct (getitem kp (of_ascii "screenshot_url")) as [u|e]; cbn [bind] in H;
      [|discriminate].
    exact (K _ H).
  - exact (K _ H).
Qed.

(** [format_helper_document_markdown] succeeds only on a complete
    document: the title, a numeric duration, the overview and an iterable
    ["key_points"] must be present, and every key point must have a
    ["title"], an ["importance"], a ["summary"] and a numeric
    ["timestamp_start"]; a document missing any of them makes it raise. *)
Theorem markdown_requires_fields (str_other : json -> pystr) (doc : json) (md : pystr) :
  format_helper_document_markdown str_other doc = Ok md ->
  (exists v, getitem doc (of_ascii "title") = Ok v)
  /\ (exists v q, getitem doc (of_ascii "duration") = Ok v /\ as_number v = Ok q)
  /\ (exists v, getitem doc (of_ascii "overview") = Ok v)
  /\ (exists kv kps, getitem doc (of_ascii "key_points") = Ok kv /\ py_iter kv = Ok kps
       /\ Forall (fun kp =>
            (exists v q, getitem kp (of_ascii "timestamp_start") = Ok v /\ as_number v = Ok q)
            /\ (exists v, getitem kp (of_ascii "title") = Ok v)
            /\ (exists v, getitem kp (of_ascii "importance") = Ok v)
            /\ (exists v, getitem kp (of_ascii "summary") = Ok v)) kps).
Proof.
  intros H. unfold format_helper_document_markdown in H.
  destruct (getitem doc (of_ascii "title")) as [ti|e] eqn:E1; cbn [bind] in H;
    [|discriminate].
  destruct (getitem doc (of_ascii "duration")) as [du|e] eqn:E2; cbn [bind] in H;
    [|discriminate].
  destruct (as_number du) as [d|e] eqn:E3; cbn [bind] in H; [|discriminate].
  destruct (getitem doc (of_ascii "overview")) as [ov|e] eqn:E4; cbn [bind] in H;
    [|discriminate].
  destruct (getitem doc (of_ascii "key_points")) as [kv|e] eqn:E5; cbn [bind] in H;
    [|discriminate].
  destruct (py_iter kv) as [kps|e] eqn:E6; cbn [bind] in H; [|discriminate].
  destruct (key_points_md str_other _ 1 kps) as [m|e] eqn:Hk; cbn [bind] in H;
    [|discriminate].
  split; [now exists ti|]. split; [now exists du, d|]. split; [now exists ov|].
  exists kv, kps. split; [reflexivity|]. split; [exact E6|].
  exact (key_points_md_fields _ _ _ _ _ Hk).
Qed.

Lemma markdown_requires_fields_witness :
  let kp := JObj [(of_ascii "title", JStr (of_ascii "K")); (of_ascii "summary", JStr (of_ascii "S"));
                  (of_ascii "timestamp_start", JNum 5); (of_ascii "importance", JStr (of_ascii "high"))] in
  let doc := JObj [(of_ascii "title", JStr (of_ascii "T")); (of_ascii "duration", JNum 75);
                   (of_ascii "overview", JStr (of_ascii "O"));
                   (of_ascii "key_points", JArr [kp])] in
  exists md, format_helper_document_markdown (fun _ => []) doc = Ok md
  /\ (exists v, getitem doc (of_ascii "title") = Ok v)
  /\ (exists v q, getitem doc (of_ascii "duration") = Ok v /\ as_number v = Ok q)
  /\ (exists v, getitem doc (of_ascii "overview") = Ok v)
  /\ (exists kv kps, getitem doc (of_ascii "key_points") = Ok kv /\ py_iter kv = Ok kps
       /\ Forall (fun kp =>
            (exists v q, getitem kp (of_ascii "timestamp_start") = Ok v /\ as_number v = Ok q)
            /\ (exists v, getitem kp (of_ascii "title") = Ok v)
            /\ (exists v, getitem kp (of_ascii "importance") = Ok v)
            /\ (exists v, getitem kp (of_ascii "summary") = Ok v)) kps).
Proof.
  intros kp doc.
  assert (E : format_helper_document_markdown (fun _ => []) doc
              = Ok (match format_helper_document_markdown (fun _ => []) doc with
                    | Ok m => m
                    | Raise _ => []
                    end)) by (vm_compute; reflexivity).
  eexists. split; [exact E|]. exact (markdown_requires_fields _ _ _ E).
Defined.

(** ** The response of [handle_user_query] *)

Lemma setitem_keeps_head (k0 : pystr) (v0 : json) (rest : list (pystr * json))
    (key : pystr) (x : json) :
  pystr_eqb k0 key = false ->
  setitem ((k0, v0) :: rest) key x = (k0, v0) :: setitem rest key x.
Proof. intros H. simpl. now rewrite H. Qed.

(** [handle_user_query] (query_handler.py) returns a response only when
    the decoded classification is a dict with both ["intent"] and
    ["topic"] keys, whatever the intent (otherwise it raises); and the
    response always starts with that intent and the user's query,
    unchanged, whatever branch filled in the rest. *)
Theorem handle_user_query_response_head
    (chat_intent : pystr -> result pystr) (json_loads : pystr -> option json)
    (rag_search : json -> nat -> result (list search_result))
    (answer_question : json -> option transcript -> list message -> result pystr)
    (generate_summary : transcript -> result pystr)
    (extract_quick_keypoints : transcript -> result (list json))
    (create_video_snippet : pystr -> Q -> Q -> result pystr)
    (str_other : json -> pystr)
    (user_query : pystr) (tr : option transcript) (video_path : option pystr)
    (hist : list message) (resp : list (pystr * json)) :
  handle_user_query chat_intent json_loads rag_search answer_question generate_summary
    extract_quick_keypoints create_video_snippet str_other user_query tr video_path hist
  = Ok resp ->
  exists ir intent topic rest,
    detect_intent chat_intent json_loads user_query = Ok ir
    /\ getitem ir (of_ascii "intent") = Ok intent
    /\ getitem ir (of_ascii "topic") = Ok topic
    /\ resp = (of_ascii "intent", intent) :: (of_ascii "query", JStr user_query) :: rest.
Proof.
  unfold handle_user_query.
  destruct (detect_intent chat_intent json_loads user_query) as [ir|e]; cbn [bind];
    [|discriminate].
  destruct (getitem ir (of_ascii "intent")) as [i|e] eqn:Ei; cbn [bind]; [|discriminate].
  destruct (getitem ir (of_ascii "topic")) as [topic|e] eqn:Et; cbn [bind];
    [|discriminate].
  intros H. exists ir, i, topic.
  repeat match type of H with
  | bind ?m _ = _ => destruct m; cbn [bind] in H; [|discriminate H]
  | (if ?b then _ else _) = _ => destruct b
  | (match ?x with [] => _ | _ :: _ => _ end) = _ => destruct x
  | (match ?x with Some _ => _ | None => _ end) = _ => destruct x
  | (let '(_, _) := ?x in _) = _ => destruct x
  end;
  apply Ok_inj in H; subst resp; rewrite ?setitem_keeps_head by (vm_compute; reflexivity);
  eexists; (split; [reflexivity|]); (split; [exact Ei|]); (split; [exact Et|]);
  reflexivity.
Qed.

Lemma handle_user_query_response_head_witness :
  let reply := JObj [(of_ascii "intent", JStr (of_ascii "search"));
                     (of_ascii "topic", JStr (of_ascii "pricing"))] in
  let h := handle_user_query (fun _ => Ok (of_ascii "{...}")) (fun _ => Some reply)
             (fun _ _ => Ok []) (fun _ _ _ => Ok []) (fun _ => Ok []) (fun _ => Ok [])
             (fun _ _ _ => Ok []) (fun _ => []) (of_ascii "what about pricing") None None []
  in
  exists resp, h = Ok resp
  /\ exists ir intent topic rest,
       detect_intent (fun _ => Ok (of_ascii "{...}")) (fun _ => Some reply)
         (of_ascii "what about pricing") = Ok ir
       /\ getitem ir (of_ascii "intent") = Ok intent
       /\ getitem ir (of_ascii "topic") = Ok topic
       /\ resp = (of_ascii "intent", intent)
                 :: (of_ascii "query", JStr (of_ascii "what about pricing")) :: rest.
Proof.
  intros reply h.
  assert (E : h = Ok (match h with Ok r => r | Raise _ => [] end))
    by (vm_compute; reflexivity).
  eexists. split; [exact E|]. unfold h in E.
  exact (handle_user_query_response_head _ _ _ _ _ _ _ _ _ _ _ _ _ E).
Defined.

(** ** Decimal digits *)

Lemma pos_lt_pow_size (p : positive) : (N.pos p < 2 ^ N.of_nat (Pos.size_nat p))%N.
Proof.
  induction p as [p IH|p IH|]; cbn [Pos.size_nat].
  - change (N.pos p~1) with (2 * N.pos p + 1)%N.
    rewrite Nat2N.inj_succ, N.pow_succ_r'. lia.
  - change (N.pos p~0) with (2 * N.pos p)%N.
    rewrite Nat2N.inj_succ, N.pow_succ_r'. lia.
  - reflexivity.
Qed.

Lemma N_lt_pow_size (n : N) : (n < 2 ^ N.of_nat (N.size_nat n))%N.
Proof. destruct n as [|p]; [reflexivity|apply pos_lt_pow_size]. Qed.

Definition is_digit (c : N) : Prop := (48 <= c <= 57)%N.

Lemma digits_aux_spec (fuel : nat) :
  forall n acc, (n < 2 ^ N.of_nat fuel)%N ->
  fold_left (fun a c => a * 10 + (c - 48))%N (digits_aux fuel n acc) 0%N
    = fold_left (fun a c => a * 10 + (c - 48))%N acc n
  /\ (Forall is_digit acc -> Forall is_digit (digits_aux fuel n acc))
  /\ (exists d, digits_aux fuel n acc = d ++ acc /\ d <> []).
Proof.
  induction fuel as [|fuel IH]; intros n acc Hn; cbn [digits_aux].
  - simpl in Hn. assert (n = 0%N) as -> by lia.
    split; [reflexivity|]. split.
    + intros H. constructor; [unfold is_digit; lia|exact H].
    + exists [48%N]. split; [reflexivity|discriminate].
  - destruct (n <? 10)%N eqn:Hlt.
    + apply N.ltb_lt in Hlt. split.
      * cbn [fold_left]. f_equal. lia.
      * split.
        -- intros H. constructor; [unfold is_digit; lia|exact H].
        -- exists [(48 + n)%N]. split; [reflexivity|discriminate].
    + apply N.ltb_ge in Hlt.
      rewrite Nat2N.inj_succ, N.pow_succ_r' in Hn.
      pose proof (N.div_mod n 10 ltac:(lia)) as Hd.
      pose proof (N.mod_lt n 10 ltac:(lia)) as Hm.
      assert (Hq : (n / 10 < 2 ^ N.of_nat fuel)%N)
        by (set (P := (2 ^ N.of_nat fuel)%N) in *; set (q := (n / 10)%N) in *;
            set (r := (n mod 10)%N) in *; lia).
      destruct (IH (n / 10)%N ((48 + n mod 10)%N :: acc) Hq) as (V & D & (d & Ed & Hd0)).
      split; [|split].
      * rewrite V. cbn [fold_left]. f_equal.
        set (q := (n / 10)%N) in *. set (r := (n mod 10)%N) in *. lia.
      * intros H. apply D. constructor; [|exact H].
        unfold is_digit. set (r := (n mod 10)%N) in *. lia.
      * exists (d ++ [(48 + n mod 10)%N]). rewrite Ed, <- app_assoc. split; [reflexivity|].
        destruct d; [congruence|discriminate].
Qed.

Lemma str_of_N_value (n : N) : digits_val (str_of_N n) = n.
Proof.
  unfold digits_val, str_of_N.
  exact (proj1 (digits_aux_spec (N.size_nat n) n [] (N_lt_pow_size n))).
Qed.

Lemma str_of_N_digits (n : N) : Forall is_digit (str_of_N n).
Proof.
  unfold str_of_N.
  exact (proj1 (proj2 (digits_aux_spec (N.size_nat n) n [] (N_lt_pow_size n))) (Forall_nil _)).
Qed.

Lemma str_of_N_inj (m n : N) : str_of_N m = str_of_N n -> m = n.
Proof.
  intros H. rewrite <- (str_of_N_value m), <- (str_of_N_value n). now rewrite H.
Qed.

(** ** Snippet file names *)

Lemma sanitize_app (u : N -> bool) (a b : pystr) :
  sanitize_output_name u (a ++ b) = sanitize_output_name u a ++ sanitize_output_name u b.
Proof. unfold sanitize_output_name. apply map_app. Qed.

Lemma sanitize_char (u : N -> bool) (c : N) :
  let c' := if py_isalnum u c || existsb (N.eqb c) (of_ascii "._-") then c else 95%N in
  (py_isalnum u c' = true \/ In c' (of_ascii "._-")) /\ c' <> 47%N.
Proof.
  intros c'. unfold c'.
  destruct (py_isalnum u c) eqn:Ha; cbn [orb].
  - split; [now left|]. intros ->. vm_compute in Ha. discriminate.
  - destruct (existsb (N.eqb c) (of_ascii "._-")) eqn:He.
    + split.
      * right. apply existsb_exists in He as [x [Hx Hcx]]. apply N.eqb_eq in Hcx.
        now subst.
      * intros ->. vm_compute in He. discriminate.
    + split; [right; simpl; tauto|discriminate].
Qed.

Lemma sanitize_digits (u : N -> bool) (d : pystr) :
  Forall is_digit d -> sanitize_output_name u d = d.
Proof.
  unfold sanitize_output_name. induction 1 as [|c d Hc Hd IH]; [reflexivity|].
  cbn [map]. rewrite IH. f_equal.
  assert (Ha : py_isalnum u c = true).
  { unfold py_isalnum, is_digit in *.
    replace (c <? 128)%N with true by (symmetry; apply N.ltb_lt; lia).
    unfold ascii_alnum. replace (48 <=? c)%N with true by (symmetry; apply N.leb_le; lia).
    replace (c <=? 57)%N with true by (symmetry; apply N.leb_le; lia). reflexivity. }
  now rewrite Ha.
Qed.

Lemma split_at_underscore (d1 d2 x y : pystr) :
  ~ In 95%N d1 -> ~ In 95%N d2 -> d1 ++ 95%N :: x = d2 ++ 95%N :: y -> d1 = d2.
Proof.
  revert d2. induction d1 as [|a d1 IH]; intros [|b d2] H1 H2 H; simpl in *.
  - reflexivity.
  - injection H as Hb _. exfalso. apply H2. now left.
  - injection H as Ha _. exfalso. apply H1. now left.
  - injection H as -> H. f_equal. apply IH; tauto.
Qed.

Lemma digit_not_underscore (d : pystr) : Forall is_digit d -> ~ In 95%N d.
Proof.
  intros H Hin. rewrite Forall_forall in H. specialize (H _ Hin). unfold is_digit in H. lia.
Qed.

(** The file name [create_snippet_from_query] (api.py) gives a local
    snippet is safe to join to the user's snippet directory: every
    character is a letter or digit or one of [._-], so it holds no ['/']
    and is a single path component; and it has the form
    ["snippet_" + ... + ".mp4"], so it is never ["."] or [".."]. *)
Theorem snippet_output_name_safe (unicode_isalnum : N -> bool) (query : pystr) (i : nat)
    (start end_ : Q) :
  let name := snippet_output_name unicode_isalnum query i start end_ in
  Forall (fun c => py_isalnum unicode_isalnum c = true \/ In c (of_ascii "._-")) name
  /\ ~ In 47%N name
  /\ exists mid, name = of_ascii "snippet_" ++ mid ++ of_ascii ".mp4".
Proof.
  intros name. split; [|split].
  - unfold name, snippet_output_name, sanitize_output_name.
    apply Forall_map, Forall_forall. intros c _. apply sanitize_char.
  - unfold name, snippet_output_name, sanitize_output_name. intros Hin.
    apply in_map_iff in Hin as [c [Hc _]]. exact (proj2 (sanitize_char unicode_isalnum c) Hc).
  - unfold name, snippet_output_name. rewrite !sanitize_app.
    set (s := sanitize_output_name unicode_isalnum).
    exists (s (firstn 20 query) ++ s (of_ascii "_") ++ s (str_of_N (N.of_nat (i + 1)))
            ++ s (of_ascii "_") ++ s (str_of_Z (py_int start)) ++ s (of_ascii "-")
            ++ s (str_of_Z (py_int end_))).
    rewrite <- !app_assoc. reflexivity.
Qed.

(** The local snippets [create_snippet_from_query] (api.py) cuts for one
    query get pairwise distinct file names: the names of the [i]-th and
    [j]-th results differ when [i <> j], whatever their times, so no
    snippet of a request overwrites another. *)
Theorem snippet_output_names_distinct (unicode_isalnum : N -> bool) (query : pystr)
    (i j : nat) (s1 e1 s2 e2 : Q) :
  i <> j ->
  snippet_output_name unicode_isalnum query i s1 e1
  <> snippet_output_name unicode_isalnum query j s2 e2.
Proof.
  intros Hij H. unfold snippet_output_name in H. rewrite !sanitize_app in H.
  apply app_inv_head in H. apply app_inv_head in H. apply app_inv_head in H.
  rewrite (sanitize_digits _ (str_of_N (N.of_nat (i + 1)))) in H by apply str_of_N_digits.
  rewrite (sanitize_digits _ (str_of_N (N.of_nat (j + 1)))) in H by apply str_of_N_digits.
  change (sanitize_output_name unicode_isalnum (of_ascii "_")) with [95%N] in H.
  simpl in H.
  apply split_at_underscore in H; try apply digit_not_underscore, str_of_N_digits.
  apply str_of_N_inj in H. lia.
Qed.

Lemma snippet_output_names_distinct_witness :
  (0 <> 1)%nat
  /\ snippet_output_name (fun _ => false) (of_ascii "intro") 0 5 20
     <> snippet_output_name (fun _ => false) (of_ascii "intro") 1 5 20.
Proof.
  split; [discriminate|].
  apply snippet_output_names_distinct. discriminate.
Defined.
